(** * pyftms: Fitness Machine feature decoding and settings negotiation

    A shallow embedding of [pyftms/client/properties/features.py]:
    the two strict [IntFlag] enumerations [MachineFeatures] and
    [MachineSettings], [read_features] (decoding of the 8-byte Feature
    characteristic followed by the two pruning passes over the settings)
    and [read_supported_ranges] (the table of value ranges).

    Integers are [Z]; flag values are the integers Python's [IntFlag]
    carries, with the bit operations written with [Z.land], [Z.lor],
    [Z.lnot].  Exceptions are values of [exception] threaded through the
    [result] monad.  The result dictionary is a [gmap] keyed by strings. *)

From Stdlib Require Import ZArith QArith Lia Bool.
From stdpp Require Import base option list strings gmap fin_maps.

Local Open Scope Z_scope.

#[local] Set Warnings "-clear-no-such-hyp".

(** ** Exceptions and the error monad *)

Inductive exception : Type :=
  | CharacteristicNotFound (what : string)
      (** raised by [read_features] when the Feature characteristic is absent *)
  | AssertionError
      (** a failed [assert] *)
  | ValueError
      (** raised by a [boundary=STRICT] flag class on an undefined bit
          (the specification's [UndefinedFlagError]) *)
  | TruncatedBufferError
      (** raised by the number serializer on a short read *)
  | TransportError (what : string)
      (** any failure of the BLE read itself *).

Inductive result (A : Type) : Type :=
  | Ok (a : A)
  | Raise (e : exception).

Arguments Ok {A} a.
Arguments Raise {A} e.

#[global] Instance result_ret : MRet result := fun A a => Ok a.
#[global] Instance result_bind : MBind result := fun A B f m =>
  match m with
  | Ok a => f a
  | Raise e => Raise e
  end.

(** Python's [assert cond]. *)
Definition assert (cond : bool) : result unit :=
  if cond then Ok tt else Raise AssertionError.

(** ** Python's [enum.Flag] machinery, as far as the two classes use it *)

Module Flag.

(** [int.bit_length()]. *)
Definition bit_length (z : Z) : Z :=
  if z =? 0 then 0 else Z.log2 (Z.abs z) + 1.

(** [Flag._generate_next_value_]: the first member is 1, every later
    [auto()] is the power of two above the highest bit used so far. *)
Definition generate_next_value (last_values : list Z) : Z :=
  match last_values with
  | [] => 1
  | _ => 2 ^ bit_length (foldr Z.max 0 last_values)
  end.

(** The values given to a body of [auto()] members, in declaration order. *)
Fixpoint auto_values (names : list string) (last_values : list Z)
  : list (string * Z) :=
  match names with
  | [] => []
  | name :: rest =>
      let v := generate_next_value last_values in
      (name, v) :: auto_values rest (last_values ++ [v])
  end.

(** A flag class is given by its members. *)
Record cls : Type := Cls { members : list (string * Z) }.

Definition member (c : cls) (name : string) : Z :=
  default 0 (snd <$> List.find (fun m => String.eqb (fst m) name) (members c)).

(** [_flag_mask_]: the union of all member values. *)
Definition flag_mask (c : cls) : Z :=
  foldr Z.lor 0 (snd <$> members c).

(** [_is_single_bit]. *)
Definition is_single_bit (num : Z) : bool :=
  if num =? 0 then false else Z.land num (num - 1) =? 0.

(** [_singles_mask_]: the union of the single-bit member values. *)
Definition singles_mask (c : cls) : Z :=
  foldr Z.lor 0 (List.filter is_single_bit (snd <$> members c)).

(** [_all_bits_]: every bit up to the highest one of [_flag_mask_]. *)
Definition all_bits (c : cls) : Z :=
  2 ^ bit_length (flag_mask c) - 1.

(** [cls(value)] for a class declared with [boundary=STRICT]: the member
    or composite pseudo-member carrying [value], or [ValueError] when
    [value] is out of range or holds a bit no member defines
    ([Flag._missing_]). *)
Definition call (c : cls) (value : Z) : result Z :=
  if negb ((Z.lnot (all_bits c) <=? value) && (value <=? all_bits c))
     || negb (Z.land value (Z.lxor (all_bits c) (flag_mask c)) =? 0)
  then Raise ValueError
  else
    let value := if value <? 0 then all_bits c + 1 + value else value in
    let unknown := Z.land value (Z.lnot (flag_mask c)) in
    if negb (unknown =? 0) then Raise ValueError else Ok value.

(** [other in self] ([Flag.__contains__]). *)
Definition contains (self other : Z) : bool :=
  Z.land other self =? other.

(** [~self] under a STRICT boundary ([Flag.__invert__]). *)
Definition invert (c : cls) (self : Z) : Z :=
  Z.land (singles_mask c) (Z.lnot self).

(** [self | other] and [self & other] on values of one class. *)
Definition or_ (self other : Z) : Z := Z.lor self other.
Definition and_ (self other : Z) : Z := Z.land self other.

(** [a] asserts no flag that [b] does not assert. *)
Definition subset (a b : Z) : Prop := Z.land a b = a.

(** The bits of [raw] outside the mask of the defined positions,
    [raw & ~mask]. *)
Definition undefined (c : cls) (raw : Z) : Z :=
  Z.land raw (Z.lnot (flag_mask c)).

End Flag.

(** ** The two flag classes *)

Module MachineFeatures.

Definition names : list string :=
  [ "AVERAGE_SPEED"; "CADENCE"; "DISTANCE"; "INCLINATION";
    "ELEVATION_GAIN"; "PACE"; "STEP_COUNT"; "RESISTANCE";
    "STRIDE_COUNT"; "EXPENDED_ENERGY"; "HEART_RATE";
    "METABOLIC_EQUIVALENT"; "ELAPSED_TIME"; "REMAINING_TIME";
    "POWER_MEASUREMENT"; "FORCE_ON_BELT_AND_POWER_OUTPUT";
    "USER_DATA_RETENTION" ]%string.

Definition class : Flag.cls := Flag.Cls (Flag.auto_values names []).

(** [MachineFeatures(value)]. *)
Definition call (value : Z) : result Z := Flag.call class value.

End MachineFeatures.

Module MachineSettings.

Definition names : list string :=
  [ "SPEED"; "INCLINE"; "RESISTANCE"; "POWER"; "HEART_RATE"; "ENERGY";
    "STEPS"; "STRIDES"; "DISTANCE"; "TIME"; "TIME_TWO_ZONES";
    "TIME_THREE_ZONES"; "TIME_FIVE_ZONES"; "BIKE_SIMULATION";
    "CIRCUMFERENCE"; "SPIN_DOWN"; "CADENCE" ]%string.

Definition class : Flag.cls := Flag.Cls (Flag.auto_values names []).

Definition SPEED : Z := Eval vm_compute in Flag.member class "SPEED".
Definition INCLINE : Z := Eval vm_compute in Flag.member class "INCLINE".
Definition RESISTANCE : Z := Eval vm_compute in Flag.member class "RESISTANCE".
Definition POWER : Z := Eval vm_compute in Flag.member class "POWER".
Definition HEART_RATE : Z := Eval vm_compute in Flag.member class "HEART_RATE".
Definition CADENCE : Z := Eval vm_compute in Flag.member class "CADENCE".

(** [MachineSettings(value)]. *)
Definition call (value : Z) : result Z := Flag.call class value.

(** [~flag] *)
Definition invert (flag : Z) : Z := Flag.invert class flag.

(** The integers that are values of the class. *)
Definition valid (settings : Z) : Prop :=
  0 <= settings <= Flag.flag_mask class.

End MachineSettings.

(** ** The enumeration [MovementDirection] *)

Module MovementDirection.

(** [class MovementDirection(IntEnum, boundary=STRICT)]. *)
Inductive t : Type :=
  | FORWARD
  | BACKWARD.

(** The integer a member carries: [FORWARD = False], [BACKWARD = True]. *)
Definition value (m : t) : Z :=
  match m with
  | FORWARD => 0
  | BACKWARD => 1
  end.

Definition members : list t := [FORWARD; BACKWARD].

(** [MovementDirection(v)]: the member whose value is [v]; an enumeration
    that is not a flag has no composite members, so any other integer is a
    [ValueError]. *)
Definition call (v : Z) : result t :=
  match List.find (fun m => value m =? v) members with
  | Some m => Ok m
  | None => Raise ValueError
  end.

End MovementDirection.

(** ** Byte streams and the number serializer *)

(** [io.BytesIO]: the bytes not yet read. *)
Module BytesIO.

Definition t : Type := list Byte.byte.

(** [bio.read(n)]: at most [n] bytes, and the stream after them. *)
Definition read (n : nat) (bio : t) : list Byte.byte * t :=
  (take n bio, drop n bio).

End BytesIO.

(** Modelled from the spec: the class [NumSerializer] of [pyftms.serializer]
    is not part of this file.  Section 4.1 of the specification: given a
    format (signedness, byte width, decimal exponent) the codec consumes
    exactly [byte_width] bytes, reads them little-endian as a signed or
    unsigned integer and returns [raw * 10^(-exponent)]; it fails with
    [TruncatedBufferError] when fewer bytes remain than [byte_width]. *)
Module NumSerializer.

Record format : Type := Format
  { signed : bool; byte_width : nat; decimal_exponent : nat }.

(** The formats [features.py] names, with the layouts of section 4.1. *)
Definition u4 : format := Format false 4 0.      (* "u4" *)
Definition u2_01 : format := Format false 2 2.   (* "u2.01" *)
Definition s2_1 : format := Format true 2 1.     (* "s2.1" *)
Definition s2 : format := Format true 2 0.       (* "s2" *)
Definition u1 : format := Format false 1 0.      (* "u1" *)

Fixpoint little_endian (data : list Byte.byte) : Z :=
  match data with
  | [] => 0
  | b :: rest => Z.of_N (Byte.to_N b) + 256 * little_endian rest
  end.

Definition from_bytes (sign : bool) (data : list Byte.byte) : Z :=
  let u := little_endian data in
  let bits := 8 * Z.of_nat (length data) in
  if sign && (2 ^ (bits - 1) <=? u) then u - 2 ^ bits else u.

(** The integer on the wire. *)
Definition deserialize_int (f : format) (bio : BytesIO.t)
  : result (Z * BytesIO.t) :=
  let '(data, bio) := BytesIO.read (byte_width f) bio in
  if (length data <? byte_width f)%nat then Raise TruncatedBufferError
  else Ok (from_bytes (signed f) data, bio).

Definition scale (f : format) (raw : Z) : Q :=
  Qred (inject_Z raw / inject_Z (10 ^ Z.of_nat (decimal_exponent f))).

(** [serializer.deserialize(bio)]. *)
Definition deserialize (f : format) (bio : BytesIO.t)
  : result (Q * BytesIO.t) :=
  '(raw, bio) ← deserialize_int f bio;
  mret (scale f raw, bio).

End NumSerializer.

(** ** The BLE client *)

(** [BleakClient], as far as [features.py] uses it.  A characteristic is
    identified by its UUID. *)
Record BleakClient : Type := {
  (** [cli.services.get_characteristic(uuid)]; [None] when the device does
      not expose it *)
  get_characteristic : string -> option string;
  (** [await cli.read_gatt_char(c)] *)
  read_gatt_char : string -> result (list Byte.byte);
}.

(** The names imported from [..const]; their values are declared outside
    this file. *)
Class Const : Type := {
  FEATURE_UUID : string;
  HEART_RATE_RANGE_UUID : string;
  INCLINATION_RANGE_UUID : string;
  POWER_RANGE_UUID : string;
  RESISTANCE_LEVEL_RANGE_UUID : string;
  SPEED_RANGE_UUID : string;
  TARGET_HEART_RATE : string;
  TARGET_INCLINATION : string;
  TARGET_POWER : string;
  TARGET_RESISTANCE : string;
  TARGET_SPEED : string;
}.

(** The members of the flag class [MachineType] (declared in
    [.machine_type]) that [read_features] tests. *)
Class MachineType : Type := {
  TREADMILL : Z;
  CROSS_TRAINER : Z;
  INDOOR_BIKE : Z;
  ROWER : Z;
}.

(** [class SettingRange(NamedTuple)]. *)
Record SettingRange : Type := {
  min_value : Q;
  max_value : Q;
  step : Q;
}.

(** Python's [x or 0] on a number. *)
Definition or_0 (x : Q) : Q := if Qeq_bool x 0 then 0%Q else x.

Section Features.

Context {const : Const} {machine_type : MachineType}.

Import MachineSettings.

(** Lines 148-156: fetch the Feature characteristic and decode the two
    bit fields. *)
Definition read_bitfields (cli : BleakClient) : result (Z * Z) :=
  match get_characteristic cli FEATURE_UUID with
  | None => Raise (CharacteristicNotFound "Machine Feature")
  | Some c =>
      data ← read_gatt_char cli c;
      _ ← assert (length data =? 8)%nat;
      let bio : BytesIO.t := data in
      '(raw, bio) ← NumSerializer.deserialize_int NumSerializer.u4 bio;
      features ← MachineFeatures.call raw;
      '(raw, bio) ← NumSerializer.deserialize_int NumSerializer.u4 bio;
      settings ← MachineSettings.call raw;
      mret (features, settings)
  end.

(** One block of lines 160-198:
    [if flag in settings: if get_characteristic(uuid) is None: settings &= ~flag]. *)
Definition remove_without_range (cli : BleakClient) (flag : Z)
    (uuid : string) (settings : Z) : Z :=
  if Flag.contains settings flag then
    match get_characteristic cli uuid with
    | None => Flag.and_ settings (invert flag)
    | Some _ => settings
    end
  else settings.

(** Lines 160-198, "Remove settings without ranges UUIDs". *)
Definition remove_without_ranges (cli : BleakClient) (settings : Z) : Z :=
  let settings := remove_without_range cli SPEED SPEED_RANGE_UUID settings in
  let settings := remove_without_range cli INCLINE INCLINATION_RANGE_UUID settings in
  let settings := remove_without_range cli RESISTANCE RESISTANCE_LEVEL_RANGE_UUID settings in
  let settings := remove_without_range cli POWER POWER_RANGE_UUID settings in
  let settings := remove_without_range cli HEART_RATE HEART_RATE_RANGE_UUID settings in
  settings.

(** Lines 202-212, "Remove untypical settings". *)
Definition remove_untypical (mt : Z) (settings : Z) : Z :=
  if Flag.contains mt TREADMILL then
    Flag.and_ settings (invert (Flag.or_ RESISTANCE POWER))
  else if Flag.contains mt CROSS_TRAINER then
    Flag.and_ settings (invert (Flag.or_ SPEED INCLINE))
  else if Flag.contains mt INDOOR_BIKE then
    Flag.and_ settings (invert (Flag.or_ SPEED INCLINE))
  else if Flag.contains mt ROWER then
    Flag.and_ settings (invert (Flag.or_ SPEED INCLINE))
  else settings.

Definition read_features (cli : BleakClient) (mt : Z) : result (Z * Z) :=
  '(features, settings) ← read_bitfields cli;
  let settings := remove_without_ranges cli settings in
  let settings := remove_untypical mt settings in
  mret (features, settings).

(** The inner coroutine [_range] of [read_supported_ranges]. *)
Definition _range (cli : BleakClient) (uuid : string)
    (num : NumSerializer.format) : result SettingRange :=
  data ← read_gatt_char cli uuid;
  let bio : BytesIO.t := data in
  '(v0, bio) ← NumSerializer.deserialize num bio;
  '(v1, bio) ← NumSerializer.deserialize num bio;
  '(v2, bio) ← NumSerializer.deserialize num bio;
  let res := Build_SettingRange (or_0 v0) (or_0 v1) (or_0 v2) in
  let '(rest, bio) := BytesIO.read 1 bio in
  _ ← assert (bool_decide (rest = []));
  mret res.

(** One block of lines 237-250:
    [if flag in settings: result[key] = await _range(uuid, num)],
    with [res] the dictionary [result]. *)
Definition read_range (cli : BleakClient) (settings flag : Z)
    (key uuid : string) (num : NumSerializer.format)
    (res : gmap string SettingRange)
  : result (gmap string SettingRange) :=
  if Flag.contains settings flag then
    r ← _range cli uuid num;
    mret (<[key := r]> res)
  else mret res.

Definition read_supported_ranges (cli : BleakClient) (settings : Z)
  : result (gmap string SettingRange) :=
  let res : gmap string SettingRange := ∅ in
  res ← read_range cli settings SPEED TARGET_SPEED SPEED_RANGE_UUID NumSerializer.u2_01 res;
  res ← read_range cli settings INCLINE TARGET_INCLINATION INCLINATION_RANGE_UUID NumSerializer.s2_1 res;
  res ← read_range cli settings RESISTANCE TARGET_RESISTANCE RESISTANCE_LEVEL_RANGE_UUID NumSerializer.s2_1 res;
  res ← read_range cli settings POWER TARGET_POWER POWER_RANGE_UUID NumSerializer.s2 res;
  res ← read_range cli settings HEART_RATE TARGET_HEART_RATE HEART_RATE_RANGE_UUID NumSerializer.u1 res;
  mret res.

End Features.

(** [read_supported_ranges] as a loop over its blocks: [rows] are the
    blocks still to run, [res] the dictionary built so far. *)
Fixpoint read_rows (cli : BleakClient) (settings : Z)
    (rows : list (Z * string * string * NumSerializer.format))
    (res : gmap string SettingRange) : result (gmap string SettingRange) :=
  match rows with
  | [] => mret res
  | (flag, key, uuid, num) :: rest =>
      res ← read_range cli settings flag key uuid num res;
      read_rows cli settings rest res
  end.

(** ** Notions used to state the properties *)

Section Policy.

Context {const : Const} {machine_type : MachineType}.

Import MachineSettings.

(** [flag] when [settings] asserts it and the device exposes no
    characteristic [uuid], the empty flag otherwise. *)
Definition without_range (cli : BleakClient) (settings flag : Z)
    (uuid : string) : Z :=
  if Flag.contains settings flag
     && bool_decide (get_characteristic cli uuid = None)
  then flag else 0.

(** The asserted range-bearing settings whose range characteristic is
    absent from the device. *)
Definition absent_ranges (cli : BleakClient) (settings : Z) : Z :=
  Z.lor
    (Z.lor
      (Z.lor
        (Z.lor (without_range cli settings SPEED SPEED_RANGE_UUID)
               (without_range cli settings INCLINE INCLINATION_RANGE_UUID))
        (without_range cli settings RESISTANCE RESISTANCE_LEVEL_RANGE_UUID))
      (without_range cli settings POWER POWER_RANGE_UUID))
    (without_range cli settings HEART_RATE HEART_RATE_RANGE_UUID).

(** The category table of the specification (section 4.3, phase 2): a
    category and the settings cleared for it, in order of precedence. *)
Definition category_rules : list (Z * Z) :=
  [ (TREADMILL, Z.lor RESISTANCE POWER);
    (CROSS_TRAINER, Z.lor SPEED INCLINE);
    (INDOOR_BIKE, Z.lor SPEED INCLINE);
    (ROWER, Z.lor SPEED INCLINE) ].

(** The settings cleared by the first rule whose category [mt] asserts. *)
Definition first_match (mt : Z) : option Z :=
  snd <$> List.find (fun rule => Flag.contains mt (fst rule)) category_rules.

Definition category_clears (mt : Z) : Z := default 0 (first_match mt).

(** The five range-bearing settings and their keys in the table of
    ranges. *)
Definition range_settings : list (Z * string) :=
  [ (SPEED, TARGET_SPEED); (INCLINE, TARGET_INCLINATION);
    (RESISTANCE, TARGET_RESISTANCE); (POWER, TARGET_POWER);
    (HEART_RATE, TARGET_HEART_RATE) ].

(** The five blocks of [read_supported_ranges]: the setting tested, its
    key, the characteristic read and the format of its three numbers. *)
Definition range_rows : list (Z * string * string * NumSerializer.format) :=
  [ (SPEED, TARGET_SPEED, SPEED_RANGE_UUID, NumSerializer.u2_01);
    (INCLINE, TARGET_INCLINATION, INCLINATION_RANGE_UUID, NumSerializer.s2_1);
    (RESISTANCE, TARGET_RESISTANCE, RESISTANCE_LEVEL_RANGE_UUID, NumSerializer.s2_1);
    (POWER, TARGET_POWER, POWER_RANGE_UUID, NumSerializer.s2);
    (HEART_RATE, TARGET_HEART_RATE, HEART_RATE_RANGE_UUID, NumSerializer.u1) ].

(** The keys of the range-bearing settings that [settings] asserts. *)
Definition asserted_keys (settings : Z) : gset string :=
  list_to_set
    (snd <$> List.filter (fun row => Flag.contains settings (fst row))
               range_settings).

(** The members of [MachineType] are flags of one bit each, no two the
    same, as [auto()] makes them. *)
Definition single_bit (flag : Z) : Prop := exists n, 0 <= n /\ flag = 2 ^ n.

Definition machine_type_flags : Prop :=
  single_bit TREADMILL /\ single_bit CROSS_TRAINER
  /\ single_bit INDOOR_BIKE /\ single_bit ROWER
  /\ TREADMILL <> CROSS_TRAINER /\ TREADMILL <> INDOOR_BIKE
  /\ TREADMILL <> ROWER /\ CROSS_TRAINER <> INDOOR_BIKE
  /\ CROSS_TRAINER <> ROWER /\ INDOOR_BIKE <> ROWER.

End Policy.

(** ** A concrete device, for the examples *)

Module Example.

(** The characteristic UUIDs the Fitness Machine Service assigns, and
    keys for the five targets. *)
Definition const : Const := {|
  FEATURE_UUID := "00002acc-0000-1000-8000-00805f9b34fb";
  HEART_RATE_RANGE_UUID := "00002ad7-0000-1000-8000-00805f9b34fb";
  INCLINATION_RANGE_UUID := "00002ad5-0000-1000-8000-00805f9b34fb";
  POWER_RANGE_UUID := "00002ad8-0000-1000-8000-00805f9b34fb";
  RESISTANCE_LEVEL_RANGE_UUID := "00002ad6-0000-1000-8000-00805f9b34fb";
  SPEED_RANGE_UUID := "00002ad4-0000-1000-8000-00805f9b34fb";
  TARGET_HEART_RATE := "target_heart_rate";
  TARGET_INCLINATION := "target_inclination";
  TARGET_POWER := "target_power";
  TARGET_RESISTANCE := "target_resistance";
  TARGET_SPEED := "target_speed";
|}.

(** A [MachineType] with one bit per category, in the order of the
    Fitness Machine Type field. *)
Definition machine_type : MachineType := {|
  TREADMILL := 1;
  CROSS_TRAINER := 2;
  ROWER := 16;
  INDOOR_BIKE := 32;
|}.

Definition STEP_CLIMBER : Z := 4.

Definition find_characteristic (chars : list (string * list Byte.byte))
    (uuid : string) : option (list Byte.byte) :=
  snd <$> List.find (fun c => String.eqb (fst c) uuid) chars.

(** A device exposing exactly the characteristics [chars], each with a
    fixed content. *)
Definition device (chars : list (string * list Byte.byte)) : BleakClient := {|
  get_characteristic uuid :=
    match find_characteristic chars uuid with
    | Some _ => Some uuid
    | None => None
    end;
  read_gatt_char uuid :=
    match find_characteristic chars uuid with
    | Some data => Ok data
    | None => Raise (TransportError "characteristic not found")
    end;
|}.

(** The Feature characteristic for given features and settings fields. *)
Definition u4_bytes (v : Z) : list Byte.byte :=
  let byte_of (n : Z) := default Byte.x00 (Byte.of_N (Z.to_N (n mod 256))) in
  [ byte_of v; byte_of (v / 256); byte_of (v / 65536); byte_of (v / 16777216) ].

Definition feature_char (features settings : Z) : string * list Byte.byte :=
  (@FEATURE_UUID const, u4_bytes features ++ u4_bytes settings).

(** A treadmill-like device: speed and incline settings with their
    ranges, and a heart-rate range. *)
Definition treadmill : BleakClient :=
  device
    [ feature_char 0 19;
      (@SPEED_RANGE_UUID const,
        [Byte.x64; Byte.x00; Byte.xd0; Byte.x07; Byte.x0a; Byte.x00]);
      (@INCLINATION_RANGE_UUID const,
        [Byte.x00; Byte.x00; Byte.x96; Byte.x00; Byte.x05; Byte.x00]);
      (@HEART_RATE_RANGE_UUID const, [Byte.x28; Byte.xc8; Byte.x01]) ].

(** The device of the specification's second scenario: speed, incline
    and resistance advertised, only the speed range exposed. *)
Definition bike : BleakClient :=
  device
    [ feature_char 0 7;
      (@SPEED_RANGE_UUID const,
        [Byte.x64; Byte.x00; Byte.xd0; Byte.x07; Byte.x0a; Byte.x00]) ].

(** A device advertising nothing. *)
Definition bare : BleakClient := device [ feature_char 0 0 ].

(** A device whose power range characteristic is one byte short. *)
Definition short_power : BleakClient :=
  device
    [ feature_char 0 8;
      (@POWER_RANGE_UUID const,
        [Byte.x00; Byte.x00; Byte.x64; Byte.x00; Byte.x01]) ].

End Example.

(** ** Sanity checks of the embedding *)

Example ex_members :
  MachineSettings.SPEED = 1 /\ MachineSettings.POWER = 8
  /\ MachineSettings.CADENCE = 65536
  /\ Flag.flag_mask MachineSettings.class = 131071
  /\ Flag.singles_mask MachineSettings.class = 131071
  /\ Flag.all_bits MachineSettings.class = 131071
  /\ Flag.flag_mask MachineFeatures.class = 131071
  /\ Flag.all_bits MachineFeatures.class = 131071.
Proof. vm_compute. repeat split. Qed.

Example ex_read_features_treadmill :
  @read_features Example.const Example.machine_type Example.treadmill 1
  = Ok (0, 19).
Proof. vm_compute. reflexivity. Qed.

Example ex_read_ranges_treadmill :
  @read_supported_ranges Example.const Example.treadmill 19
  = Ok (<[ "target_heart_rate" := Build_SettingRange 40 200 1 ]>
         (<[ "target_inclination" := Build_SettingRange 0 15 (1 # 2) ]>
           (<[ "target_speed" := Build_SettingRange 1 20 (1 # 10) ]> ∅)))%string.
Proof. vm_compute. reflexivity. Qed.

(** ** The error monad *)

Lemma bind_Ok {A B : Type} (m : result A) (f : A -> result B) (b : B) :
  m ≫= f = Ok b -> exists a, m = Ok a /\ f a = Ok b.
Proof. destruct m as [a | e]; [eauto | discriminate]. Qed.

Lemma bind_Raise {A B : Type} (m : result A) (f : A -> result B) e :
  m = Raise e -> m ≫= f = Raise e.
Proof. intros ->. reflexivity. Qed.

Lemma bind_Ok_eq {A B : Type} (m : result A) (f : A -> result B) a :
  m = Ok a -> m ≫= f = f a.
Proof. intros ->. reflexivity. Qed.

Lemma bind_ret_l {A B : Type} (a : A) (f : A -> result B) :
  Ok a ≫= f = f a.
Proof. reflexivity. Qed.

Lemma bind_raise_l {A B : Type} e (f : A -> result B) :
  Raise e ≫= f = Raise e.
Proof. reflexivity. Qed.

(** Inversion of a successful sequence of binds. *)
Ltac bind_inv E :=
  repeat
    (let a := fresh "a" in
     let Ea := fresh "E" in
     apply bind_Ok in E as (a & Ea & E);
     try match type of a with (_ * _)%type => destruct a as [? ?] end;
     cbv beta iota in E).

(** ** Bitwise facts *)

Lemma ones_nonneg k : 0 <= k -> 0 <= Z.ones k.
Proof.
  intros Hk. rewrite Z.ones_equiv.
  pose proof (Z.pow_pos_nonneg 2 k). lia.
Qed.

Lemma testbit_above_ones k v i :
  0 <= k -> 0 <= v <= Z.ones k -> k <= i -> Z.testbit v i = false.
Proof.
  intros Hk [Hv Hle] Hi.
  destruct (Z.eq_dec v 0) as [-> | Hnz]; [apply Z.bits_0 |].
  apply Z.bits_above_log2; [assumption |].
  apply Z.lt_le_trans with k; [| assumption].
  apply Z.log2_lt_pow2; [lia |].
  rewrite Z.ones_equiv in Hle. lia.
Qed.

Lemma land_lnot_ones k v :
  0 <= k -> 0 <= v -> Z.land v (Z.lnot (Z.ones k)) = 0 <-> v <= Z.ones k.
Proof.
  intros Hk Hv.
  rewrite <- Z.ldiff_land, Z.ldiff_ones_r, Z.shiftl_eq_0_iff by assumption.
  rewrite Z.shiftr_div_pow2 by assumption.
  pose proof (Z.pow_pos_nonneg 2 k ltac:(lia) Hk) as Hpos.
  rewrite Z.div_small_iff by lia.
  rewrite Z.ones_equiv. lia.
Qed.

Lemma land_ones_valid k v :
  0 <= k -> 0 <= v <= Z.ones k -> Z.land v (Z.ones k) = v.
Proof.
  intros Hk [Hv Hle].
  rewrite Z.land_ones by assumption.
  apply Z.mod_small. rewrite Z.ones_equiv in Hle. lia.
Qed.

(** ** The strict flag constructor *)

Section FlagCall.

Variable c : Flag.cls.
Variable k : Z.
Hypothesis k_nonneg : 0 <= k.
Hypothesis mask_ones : Flag.flag_mask c = Z.ones k.
Hypothesis all_ones : Flag.all_bits c = Z.ones k.

(** On a non-negative integer the constructor is the range check
    against the mask. *)
Lemma call_nonneg v :
  0 <= v ->
  Flag.call c v = if v <=? Z.ones k then Ok v else Raise ValueError.
Proof using k_nonneg mask_ones all_ones.
  intros Hv. unfold Flag.call.
  rewrite mask_ones, all_ones, Z.lxor_nilpotent, Z.land_0_r.
  pose proof (ones_nonneg k k_nonneg) as Hones.
  replace (Z.lnot (Z.ones k) <=? v) with true
    by (symmetry; apply Z.leb_le; unfold Z.lnot; lia).
  destruct (Z.leb_spec v (Z.ones k)) as [Hle | Hgt]; cbn.
  - replace (v <? 0) with false by (symmetry; apply Z.ltb_ge; lia).
    apply (land_lnot_ones k v k_nonneg Hv) in Hle.
    rewrite Hle. reflexivity.
  - reflexivity.
Qed.

Lemma call_undefined_bit v :
  0 <= v -> Z.land v (Z.lnot (Flag.flag_mask c)) <> 0 ->
  Flag.call c v = Raise ValueError.
Proof using k_nonneg mask_ones all_ones.
  intros Hv Hbits. rewrite call_nonneg by assumption.
  destruct (Z.leb_spec v (Z.ones k)) as [Hle | Hgt]; [| reflexivity].
  exfalso. apply Hbits. rewrite mask_ones.
  apply land_lnot_ones; assumption.
Qed.

Lemma call_defined_bits v :
  0 <= v -> Z.land v (Z.lnot (Flag.flag_mask c)) = 0 ->
  Flag.call c v = Ok v.
Proof using k_nonneg mask_ones all_ones.
  intros Hv Hbits. rewrite call_nonneg by assumption.
  rewrite mask_ones in Hbits.
  apply land_lnot_ones in Hbits; try assumption.
  apply Z.leb_le in Hbits. rewrite Hbits. reflexivity.
Qed.

Lemma call_high_bit v i :
  0 <= v -> k <= i -> Z.testbit v i = true ->
  Flag.call c v = Raise ValueError.
Proof using k_nonneg mask_ones all_ones.
  intros Hv Hi Hbit. rewrite call_nonneg by assumption.
  destruct (Z.leb_spec v (Z.ones k)) as [Hle | Hgt]; [| reflexivity].
  rewrite (testbit_above_ones k v i) in Hbit by auto. discriminate.
Qed.

(** Whatever the argument, a value the constructor returns lies within
    the mask. *)
Lemma call_Ok_range v s :
  Flag.call c v = Ok s -> 0 <= s <= Z.ones k.
Proof using k_nonneg mask_ones all_ones.
  unfold Flag.call. rewrite all_ones.
  pose proof (ones_nonneg k k_nonneg) as Hones.
  destruct (Z.leb_spec (Z.lnot (Z.ones k)) v) as [Hlo | Hlo]; cbn;
    [| discriminate].
  destruct (Z.leb_spec v (Z.ones k)) as [Hhi | Hhi]; cbn; [| discriminate].
  destruct (Z.land v _ =? 0); cbn; [| discriminate].
  destruct (negb _); [discriminate |].
  intros [= <-]. unfold Z.lnot in Hlo.
  destruct (Z.ltb_spec v 0); lia.
Qed.

End FlagCall.

Lemma features_mask :
  Flag.flag_mask MachineFeatures.class = Z.ones 17
  /\ Flag.all_bits MachineFeatures.class = Z.ones 17.
Proof. split; vm_compute; reflexivity. Qed.

Lemma settings_mask :
  Flag.flag_mask MachineSettings.class = Z.ones 17
  /\ Flag.all_bits MachineSettings.class = Z.ones 17
  /\ Flag.singles_mask MachineSettings.class = Z.ones 17.
Proof. repeat split; vm_compute; reflexivity. Qed.

(** The defined bit positions are exactly 0..16 in both classes. *)
Lemma defined_bits i :
  0 <= i ->
  Z.testbit (Flag.flag_mask MachineFeatures.class) i = (i <? 17)
  /\ Z.testbit (Flag.flag_mask MachineSettings.class) i = (i <? 17).
Proof.
  intros Hi.
  rewrite (proj1 features_mask), (proj1 settings_mask).
  split; apply Z.testbit_ones_nonneg; lia.
Qed.

(** C1, as amended: every 32-bit value with a bit at position 17 or above
    set is refused by both constructors with [ValueError] (the
    specification's [UndefinedFlagError]).  Positions 0 to 16 are all
    defined, see [defined_bits]. *)
Theorem C1_bit_17_or_above_is_refused (v i : Z) :
  0 <= v < 2 ^ 32 -> 17 <= i -> Z.testbit v i = true ->
  MachineFeatures.call v = Raise ValueError
  /\ MachineSettings.call v = Raise ValueError.
Proof.
  intros [Hv _] Hi Hbit. split.
  - apply (call_high_bit MachineFeatures.class 17 ltac:(lia)
             (proj1 features_mask) (proj2 features_mask) v i); assumption.
  - apply (call_high_bit MachineSettings.class 17 ltac:(lia)
             (proj1 settings_mask) (proj1 (proj2 settings_mask)) v i);
      assumption.
Qed.

Lemma C1_bit_17_or_above_is_refused_witness :
  MachineFeatures.call 131072 = Raise ValueError
  /\ MachineSettings.call 131072 = Raise ValueError.
Proof.
  apply (C1_bit_17_or_above_is_refused 131072 17);
    [vm_compute; split; congruence | vm_compute; congruence | reflexivity].
Defined.

(** C1 as stated fails: bit 16 is the seventeenth member of either class
    ([USER_DATA_RETENTION], [CADENCE]), so the value with only that bit set
    decodes, also through the 8-byte Feature characteristic. *)
Lemma C1_bit_16_is_accepted :
  Z.testbit 65536 16 = true
  /\ MachineSettings.CADENCE = 65536
  /\ MachineFeatures.call 65536 = Ok 65536
  /\ MachineSettings.call 65536 = Ok 65536
  /\ @read_bitfields Example.const
       (Example.device [Example.feature_char 65536 65536])
     = Ok (65536, 65536).
Proof. repeat split; vm_compute; reflexivity. Qed.

(** C2: on a 32-bit raw integer each constructor succeeds exactly when no
    bit outside the mask of defined positions is set; with such a bit it
    raises, and a value it returns is the raw integer itself, never a
    masked one. *)
Theorem C2_decode_iff_no_undefined_bit (raw : Z) :
  0 <= raw < 2 ^ 32 ->
  ((exists v, MachineFeatures.call raw = Ok v)
     <-> Flag.undefined MachineFeatures.class raw = 0)
  /\ ((exists v, MachineSettings.call raw = Ok v)
     <-> Flag.undefined MachineSettings.class raw = 0)
  /\ (Flag.undefined MachineFeatures.class raw <> 0 ->
      MachineFeatures.call raw = Raise ValueError)
  /\ (Flag.undefined MachineSettings.class raw <> 0 ->
      MachineSettings.call raw = Raise ValueError)
  /\ (forall v, MachineFeatures.call raw = Ok v -> v = raw)
  /\ (forall v, MachineSettings.call raw = Ok v -> v = raw).
Proof.
  intros [Hraw _].
  destruct features_mask as [Fm Fa].
  destruct settings_mask as (Sm & Sa & _).
  assert (Hk : 0 <= 17) by lia.
  pose proof (call_undefined_bit _ 17 Hk Fm Fa raw Hraw) as Fbad.
  pose proof (call_undefined_bit _ 17 Hk Sm Sa raw Hraw) as Sbad.
  pose proof (call_defined_bits _ 17 Hk Fm Fa raw Hraw) as Fgood.
  pose proof (call_defined_bits _ 17 Hk Sm Sa raw Hraw) as Sgood.
  unfold MachineFeatures.call, MachineSettings.call, Flag.undefined.
  repeat split.
  - intros [v Hv].
    destruct (Z.eq_dec (Z.land raw (Z.lnot (Flag.flag_mask MachineFeatures.class))) 0)
      as [E | E]; [exact E | rewrite (Fbad E) in Hv; discriminate].
  - intros E. exists raw. auto.
  - intros [v Hv].
    destruct (Z.eq_dec (Z.land raw (Z.lnot (Flag.flag_mask MachineSettings.class))) 0)
      as [E | E]; [exact E | rewrite (Sbad E) in Hv; discriminate].
  - intros E. exists raw. auto.
  - exact Fbad.
  - exact Sbad.
  - intros v Hv.
    rewrite (call_nonneg _ 17 Hk Fm Fa raw Hraw) in Hv.
    destruct (raw <=? Z.ones 17); congruence.
  - intros v Hv.
    rewrite (call_nonneg _ 17 Hk Sm Sa raw Hraw) in Hv.
    destruct (raw <=? Z.ones 17); congruence.
Qed.

Lemma C2_decode_iff_no_undefined_bit_witness :
  MachineSettings.call 131079 = Raise ValueError
  /\ (forall v, MachineSettings.call 7 = Ok v -> v = 7).
Proof.
  assert (H32 : 0 <= 131079 < 2 ^ 32) by (vm_compute; split; congruence).
  assert (H7 : 0 <= 7 < 2 ^ 32) by (vm_compute; split; congruence).
  pose proof (C2_decode_iff_no_undefined_bit 131079 H32) as (_ & _ & _ & Hbad & _).
  pose proof (C2_decode_iff_no_undefined_bit 7 H7) as (_ & _ & _ & _ & _ & Hsame).
  split; [| exact Hsame].
  apply Hbad. vm_compute. discriminate.
Defined.

(** ** Algebra of flag values *)

Lemma ldiff_id_iff a x : Z.ldiff a x = a <-> Z.land a x = 0.
Proof.
  split; intros E; apply Z.bits_inj'; intros n Hn.
  - apply (f_equal (fun z => Z.testbit z n)) in E.
    rewrite Z.ldiff_spec in E.
    rewrite Z.land_spec, Z.bits_0.
    destruct (Z.testbit a n), (Z.testbit x n); cbn in *; congruence.
  - apply (f_equal (fun z => Z.testbit z n)) in E.
    rewrite Z.land_spec, Z.bits_0 in E.
    rewrite Z.ldiff_spec.
    destruct (Z.testbit a n), (Z.testbit x n); cbn in *; congruence.
Qed.

Lemma subset_refl a : Flag.subset a a.
Proof. apply Z.land_diag. Qed.

Lemma subset_trans a b c :
  Flag.subset a b -> Flag.subset b c -> Flag.subset a c.
Proof.
  unfold Flag.subset. intros Hab Hbc.
  rewrite <- Hab at 1. rewrite <- Z.land_assoc, Hbc. exact Hab.
Qed.

Lemma subset_and s m : Flag.subset (Flag.and_ s m) s.
Proof.
  unfold Flag.subset, Flag.and_.
  rewrite (Z.land_comm s m), <- Z.land_assoc, Z.land_diag. reflexivity.
Qed.

Lemma subset_contains a b flag :
  Flag.subset a b -> Flag.contains a flag = true -> Flag.contains b flag = true.
Proof.
  unfold Flag.subset, Flag.contains. intros Hab Hin.
  apply Z.eqb_eq in Hin. apply Z.eqb_eq.
  rewrite <- Hin at 1. rewrite <- Z.land_assoc, Hab. exact Hin.
Qed.

Lemma subset_testbit a b n :
  Flag.subset a b -> Z.testbit a n = true -> Z.testbit b n = true.
Proof.
  unfold Flag.subset. intros Hab Hbit.
  rewrite <- Hab, Z.land_spec in Hbit.
  apply andb_true_iff in Hbit. tauto.
Qed.

Lemma valid_land_mask s :
  MachineSettings.valid s -> Z.land s (Z.ones 17) = s.
Proof.
  unfold MachineSettings.valid. rewrite (proj1 settings_mask).
  apply land_ones_valid. lia.
Qed.

Lemma valid_ldiff s x :
  MachineSettings.valid s -> MachineSettings.valid (Z.ldiff s x).
Proof.
  intros Hs. pose proof (valid_land_mask s Hs) as Hmask.
  unfold MachineSettings.valid in *. rewrite (proj1 settings_mask) in *.
  assert (E : Z.land (Z.ldiff s x) (Z.ones 17) = Z.ldiff s x).
  { rewrite !Z.ldiff_land, <- Z.land_assoc, (Z.land_comm (Z.lnot x)),
      Z.land_assoc, Hmask. reflexivity. }
  rewrite Z.land_ones in E by lia.
  pose proof (Z.mod_pos_bound (Z.ldiff s x) (2 ^ 17) ltac:(lia)) as Hb.
  rewrite E in Hb. rewrite Z.ones_equiv. lia.
Qed.

(** On a value of the class, [settings & ~flag] clears exactly the bits
    of [flag]. *)
Lemma and_invert s flag :
  MachineSettings.valid s ->
  Flag.and_ s (MachineSettings.invert flag) = Z.ldiff s flag.
Proof.
  intros Hs. unfold Flag.and_, MachineSettings.invert, Flag.invert.
  rewrite (proj2 (proj2 settings_mask)), Z.land_assoc, (valid_land_mask s Hs).
  symmetry. apply Z.ldiff_land.
Qed.

Lemma contains_ldiff_disjoint s flag x :
  Z.land flag x = 0 ->
  Flag.contains (Z.ldiff s x) flag = Flag.contains s flag.
Proof.
  intros Hd. unfold Flag.contains.
  rewrite Z.ldiff_land, (Z.land_comm s), Z.land_assoc, <- Z.ldiff_land.
  rewrite (proj2 (ldiff_id_iff flag x) Hd). reflexivity.
Qed.

Lemma contains_ldiff_cleared s flag x :
  flag <> 0 -> Z.land flag x = flag ->
  Flag.contains (Z.ldiff s x) flag = false.
Proof.
  intros Hnz Hin. unfold Flag.contains. apply Z.eqb_neq.
  rewrite Z.ldiff_land, (Z.land_comm s), Z.land_assoc, <- Z.ldiff_land.
  assert (E : Z.ldiff flag x = 0).
  { rewrite <- Hin at 1. rewrite Z.ldiff_land, <- Z.land_assoc,
      Z.land_lnot_diag, Z.land_0_r. reflexivity. }
  rewrite E, Z.land_0_l. congruence.
Qed.

(** Distinct one-bit flags do not contain each other. *)
Lemma single_bit_not_contains a b :
  single_bit a -> single_bit b -> a <> b -> Flag.contains b a = false.
Proof.
  intros (n & Hn & ->) (m & Hm & ->) Hne.
  unfold Flag.contains. apply Z.eqb_neq. intros E.
  apply (f_equal (fun z => Z.testbit z n)) in E.
  rewrite Z.land_spec, !Z.pow2_bits_eqb, Z.eqb_refl in E by assumption.
  cbn in E. apply Z.eqb_eq in E. subst m. congruence.
Qed.

Lemma contains_self a : Flag.contains a a = true.
Proof. unfold Flag.contains. rewrite Z.land_diag. apply Z.eqb_refl. Qed.

(** ** The two pruning passes of [read_features] *)

Section Negotiation.

Context {const : Const} {machine_type : MachineType}.

Import MachineSettings.

Implicit Types (cli : BleakClient) (mt raw settings features : Z).

(** *** Decoding *)

Lemma read_bitfields_valid cli features raw :
  read_bitfields cli = Ok (features, raw) -> valid raw.
Proof.
  unfold read_bitfields. intros E.
  destruct (get_characteristic cli FEATURE_UUID) as [c |]; [| discriminate].
  bind_inv E. injection E as [= -> ->].
  unfold valid. rewrite (proj1 settings_mask).
  match goal with
  | Hcall : call ?v = Ok raw |- _ =>
      exact (call_Ok_range class 17 ltac:(lia) (proj1 settings_mask)
               (proj1 (proj2 settings_mask)) v raw Hcall)
  end.
Qed.

(** Once the bit fields are decoded nothing can fail any more. *)
Lemma read_features_decoded cli mt features raw :
  read_bitfields cli = Ok (features, raw) ->
  read_features cli mt
  = Ok (features, remove_untypical mt (remove_without_ranges cli raw)).
Proof. intros E. unfold read_features. rewrite E. reflexivity. Qed.

(** *** Phase 1 *)

Lemma remove_without_range_present cli flag uuid settings c :
  get_characteristic cli uuid = Some c ->
  remove_without_range cli flag uuid settings = settings.
Proof.
  intros E. unfold remove_without_range. rewrite E.
  destruct (Flag.contains settings flag); reflexivity.
Qed.

Lemma remove_without_range_not_asserted cli flag uuid settings :
  Flag.contains settings flag = false ->
  remove_without_range cli flag uuid settings = settings.
Proof. intros E. unfold remove_without_range. rewrite E. reflexivity. Qed.

Lemma remove_without_range_absent cli flag uuid settings :
  Flag.contains settings flag = true ->
  get_characteristic cli uuid = None ->
  remove_without_range cli flag uuid settings
  = Flag.and_ settings (invert flag).
Proof.
  intros E1 E2. unfold remove_without_range. rewrite E1, E2. reflexivity.
Qed.

Lemma remove_without_range_subset cli flag uuid settings :
  Flag.subset (remove_without_range cli flag uuid settings) settings.
Proof.
  unfold remove_without_range.
  destruct (Flag.contains settings flag); [| apply subset_refl].
  destruct (get_characteristic cli uuid);
    [apply subset_refl | apply subset_and].
Qed.

Lemma remove_without_ranges_subset cli settings :
  Flag.subset (remove_without_ranges cli settings) settings.
Proof.
  unfold remove_without_ranges.
  repeat (eapply subset_trans; [apply remove_without_range_subset |]).
  apply subset_refl.
Qed.

Lemma remove_without_range_ldiff cli flag uuid settings :
  valid settings ->
  remove_without_range cli flag uuid settings
  = Z.ldiff settings (without_range cli settings flag uuid).
Proof.
  intros Hs. unfold remove_without_range, without_range.
  destruct (Flag.contains settings flag); cbn;
    [| symmetry; apply Z.ldiff_0_r].
  destruct (get_characteristic cli uuid) as [c |].
  - rewrite bool_decide_eq_false_2 by discriminate.
    symmetry. apply Z.ldiff_0_r.
  - rewrite bool_decide_eq_true_2 by reflexivity.
    apply and_invert, Hs.
Qed.

(** A pass over [flag] after the flags [gone] have been removed. *)
Lemma remove_without_range_step cli flag uuid settings gone :
  valid settings -> Z.land flag gone = 0 ->
  remove_without_range cli flag uuid (Z.ldiff settings gone)
  = Z.ldiff settings (Z.lor gone (without_range cli settings flag uuid)).
Proof.
  intros Hs Hd.
  rewrite remove_without_range_ldiff by (apply valid_ldiff, Hs).
  rewrite Z.ldiff_ldiff_l. f_equal. f_equal.
  unfold without_range. rewrite contains_ldiff_disjoint by exact Hd.
  reflexivity.
Qed.

Lemma without_range_cases cli settings flag uuid :
  without_range cli settings flag uuid = 0
  \/ without_range cli settings flag uuid = flag.
Proof. unfold without_range. destruct (_ && _); auto. Qed.

(** Phase 1 clears exactly the asserted settings whose range
    characteristic is absent. *)
Lemma remove_without_ranges_ldiff cli settings :
  valid settings ->
  remove_without_ranges cli settings
  = Z.ldiff settings (absent_ranges cli settings).
Proof.
  intros Hs. unfold remove_without_ranges, absent_ranges.
  rewrite (remove_without_range_ldiff cli SPEED) by exact Hs.
  destruct (without_range_cases cli settings SPEED SPEED_RANGE_UUID) as [E1 | E1];
  destruct (without_range_cases cli settings INCLINE INCLINATION_RANGE_UUID) as [E2 | E2];
  destruct (without_range_cases cli settings RESISTANCE RESISTANCE_LEVEL_RANGE_UUID) as [E3 | E3];
  destruct (without_range_cases cli settings POWER POWER_RANGE_UUID) as [E4 | E4];
    (rewrite remove_without_range_step by (try exact Hs; rewrite ?E1; reflexivity);
     rewrite remove_without_range_step by (try exact Hs; rewrite ?E1, ?E2; reflexivity);
     rewrite remove_without_range_step by (try exact Hs; rewrite ?E1, ?E2, ?E3; reflexivity);
     rewrite remove_without_range_step by (try exact Hs; rewrite ?E1, ?E2, ?E3, ?E4; reflexivity);
     reflexivity).
Qed.

Lemma absent_ranges_asserted cli settings :
  Flag.subset (absent_ranges cli settings) settings.
Proof.
  assert (Hone : forall flag uuid,
             Z.land (without_range cli settings flag uuid) settings
             = without_range cli settings flag uuid).
  { intros flag uuid. unfold without_range.
    destruct (Flag.contains settings flag) eqn:E; cbn; [| reflexivity].
    destruct (bool_decide _); [| reflexivity].
    apply Z.eqb_eq, E. }
  unfold Flag.subset, absent_ranges.
  rewrite !(Z.land_comm _ settings), !Z.land_lor_distr_r,
    !(Z.land_comm settings), !Hone.
  reflexivity.
Qed.

(** *** Phase 2 *)

Lemma remove_untypical_subset mt settings :
  Flag.subset (remove_untypical mt settings) settings.
Proof.
  unfold remove_untypical.
  repeat (destruct (Flag.contains mt _); [apply subset_and |]).
  apply subset_refl.
Qed.

Lemma remove_untypical_first_match mt settings :
  valid settings ->
  remove_untypical mt settings
  = match first_match mt with
    | Some clear => Z.ldiff settings clear
    | None => settings
    end.
Proof.
  intros Hs. unfold remove_untypical, first_match, category_rules.
  cbn [List.find fst snd].
  repeat (destruct (Flag.contains mt _);
          [cbn [fmap option_fmap option_map snd]; apply and_invert, Hs |]).
  reflexivity.
Qed.

Lemma remove_untypical_treadmill mt settings :
  valid settings -> Flag.contains mt TREADMILL = true ->
  remove_untypical mt settings = Z.ldiff settings (Z.lor RESISTANCE POWER).
Proof.
  intros Hs Htread. unfold remove_untypical. rewrite Htread.
  apply and_invert, Hs.
Qed.

Lemma remove_untypical_ldiff mt settings :
  valid settings ->
  remove_untypical mt settings = Z.ldiff settings (category_clears mt).
Proof.
  intros Hs. rewrite remove_untypical_first_match by exact Hs.
  unfold category_clears.
  destruct (first_match mt); cbn; [reflexivity |].
  symmetry. apply Z.ldiff_0_r.
Qed.

(** *** Both phases *)

Lemma negotiated_subset cli mt settings :
  Flag.subset (remove_untypical mt (remove_without_ranges cli settings))
    settings.
Proof.
  eapply subset_trans;
    [apply remove_untypical_subset | apply remove_without_ranges_subset].
Qed.

Lemma negotiated_ldiff cli mt settings :
  valid settings ->
  remove_untypical mt (remove_without_ranges cli settings)
  = Z.ldiff settings
      (Z.lor (absent_ranges cli settings) (category_clears mt)).
Proof.
  intros Hs.
  rewrite remove_without_ranges_ldiff by exact Hs.
  rewrite remove_untypical_ldiff by (apply valid_ldiff, Hs).
  apply Z.ldiff_ldiff_l.
Qed.

End Negotiation.

(** ** Properties of the negotiation *)

Section NegotiationProperties.

Context {const : Const} {machine_type : MachineType}.

Import MachineSettings.

Implicit Types (cli : BleakClient) (mt raw settings features : Z).

(** C3: the second scenario of the specification.  The device advertises
    speed, incline and resistance and exposes the speed range only; the
    category is indoor bike.  Phase 1 leaves speed alone, the branch taken
    in phase 2 is the indoor-bike one, and [read_features] returns the
    empty settings. *)
Theorem C3_indoor_bike_scenario cli features c :
  machine_type_flags ->
  read_bitfields cli = Ok (features, Z.lor SPEED (Z.lor INCLINE RESISTANCE)) ->
  get_characteristic cli SPEED_RANGE_UUID = Some c ->
  get_characteristic cli INCLINATION_RANGE_UUID = None ->
  get_characteristic cli RESISTANCE_LEVEL_RANGE_UUID = None ->
  remove_without_ranges cli (Z.lor SPEED (Z.lor INCLINE RESISTANCE)) = SPEED
  /\ Flag.contains INDOOR_BIKE TREADMILL = false
  /\ Flag.contains INDOOR_BIKE CROSS_TRAINER = false
  /\ Flag.contains INDOOR_BIKE INDOOR_BIKE = true
  /\ remove_untypical INDOOR_BIKE SPEED = 0
  /\ read_features cli INDOOR_BIKE = Ok (features, 0).
Proof.
  intros (HT & HC & HI & _ & _ & HTI & _ & HCI & _) Hbits Hspeed Hincl Hres.
  assert (Hphase1 :
            remove_without_ranges cli (Z.lor SPEED (Z.lor INCLINE RESISTANCE))
            = SPEED).
  { unfold remove_without_ranges.
    rewrite (remove_without_range_present cli SPEED _ _ c Hspeed).
    rewrite (remove_without_range_absent cli INCLINE) by (reflexivity || assumption).
    replace (Flag.and_ (Z.lor SPEED (Z.lor INCLINE RESISTANCE)) (invert INCLINE))
      with 5 by (vm_compute; reflexivity).
    rewrite (remove_without_range_absent cli RESISTANCE) by (reflexivity || assumption).
    replace (Flag.and_ 5 (invert RESISTANCE)) with 1 by (vm_compute; reflexivity).
    rewrite (remove_without_range_not_asserted cli POWER) by reflexivity.
    rewrite (remove_without_range_not_asserted cli HEART_RATE) by reflexivity.
    reflexivity. }
  pose proof (single_bit_not_contains TREADMILL INDOOR_BIKE HT HI HTI) as HnT.
  pose proof (single_bit_not_contains CROSS_TRAINER INDOOR_BIKE HC HI HCI) as HnC.
  pose proof (contains_self INDOOR_BIKE) as HyI.
  assert (Hphase2 : remove_untypical INDOOR_BIKE SPEED = 0).
  { unfold remove_untypical. rewrite HnT, HnC, HyI.
    vm_compute. reflexivity. }
  repeat split; try assumption.
  rewrite (read_features_decoded cli INDOOR_BIKE features _ Hbits).
  rewrite Hphase1, Hphase2. reflexivity.
Qed.

(** C4, as amended: phase 2 applies at most one rule set, that of the
    first category in the order treadmill, cross trainer, indoor bike,
    rower that [mt] asserts.  With treadmill asserted exactly resistance
    and power are cleared, whatever else is asserted; otherwise, with one
    of the other three asserted, exactly speed and incline; with none
    asserted nothing is cleared. *)
Theorem C4_first_matching_rule_only mt settings :
  valid settings ->
  remove_untypical mt settings
  = match first_match mt with
    | Some clear => Z.ldiff settings clear
    | None => settings
    end
  /\ (Flag.contains mt TREADMILL = true ->
      first_match mt = Some (Z.lor RESISTANCE POWER)
      /\ remove_untypical mt settings
         = Z.ldiff settings (Z.lor RESISTANCE POWER)
      /\ Flag.contains (remove_untypical mt settings) SPEED
         = Flag.contains settings SPEED
      /\ Flag.contains (remove_untypical mt settings) INCLINE
         = Flag.contains settings INCLINE)
  /\ (Flag.contains mt TREADMILL = false ->
      Flag.contains mt CROSS_TRAINER || Flag.contains mt INDOOR_BIKE
        || Flag.contains mt ROWER = true ->
      first_match mt = Some (Z.lor SPEED INCLINE)
      /\ remove_untypical mt settings
         = Z.ldiff settings (Z.lor SPEED INCLINE)
      /\ Flag.contains (remove_untypical mt settings) RESISTANCE
         = Flag.contains settings RESISTANCE
      /\ Flag.contains (remove_untypical mt settings) POWER
         = Flag.contains settings POWER)
  /\ (Flag.contains mt TREADMILL = false ->
      Flag.contains mt CROSS_TRAINER = false ->
      Flag.contains mt INDOOR_BIKE = false ->
      Flag.contains mt ROWER = false ->
      first_match mt = None /\ remove_untypical mt settings = settings).
Proof.
  intros Hs.
  pose proof (remove_untypical_first_match mt settings Hs) as Hfm.
  split; [exact Hfm |]. rewrite Hfm.
  unfold first_match, category_rules. cbn [List.find fst snd].
  split; [| split].
  - intros ->. cbn [fmap option_fmap option_map snd].
    repeat split; apply contains_ldiff_disjoint; reflexivity.
  - intros -> Hother.
    assert (E : (if Flag.contains mt CROSS_TRAINER
                 then Some (CROSS_TRAINER, Z.lor SPEED INCLINE)
                 else if Flag.contains mt INDOOR_BIKE
                      then Some (INDOOR_BIKE, Z.lor SPEED INCLINE)
                      else if Flag.contains mt ROWER
                           then Some (ROWER, Z.lor SPEED INCLINE)
                           else None)
                = Some (if Flag.contains mt CROSS_TRAINER then CROSS_TRAINER
                        else if Flag.contains mt INDOOR_BIKE then INDOOR_BIKE
                             else ROWER, Z.lor SPEED INCLINE)).
    { destruct (Flag.contains mt CROSS_TRAINER),
        (Flag.contains mt INDOOR_BIKE), (Flag.contains mt ROWER);
        cbn in Hother; congruence. }
    rewrite E. cbn [fmap option_fmap option_map snd].
    repeat split; apply contains_ldiff_disjoint; reflexivity.
  - intros -> -> -> ->. split; reflexivity.
Qed.

(** C5: the settings [read_features] returns are a subset of the raw
    settings it decoded: every flag and every bit of the result is one of
    the raw value. *)
Theorem C5_negotiated_subset_of_raw cli mt features raw :
  read_bitfields cli = Ok (features, raw) ->
  exists negotiated,
    read_features cli mt = Ok (features, negotiated)
    /\ Flag.subset negotiated raw
    /\ (forall flag, Flag.contains negotiated flag = true ->
                     Flag.contains raw flag = true)
    /\ (forall n, Z.testbit negotiated n = true -> Z.testbit raw n = true).
Proof.
  intros Hbits. eexists. split; [apply read_features_decoded, Hbits |].
  pose proof (negotiated_subset cli mt raw) as Hsub.
  split; [exact Hsub |]. split.
  - intros flag. apply subset_contains, Hsub.
  - intros n. apply subset_testbit, Hsub.
Qed.

(** C6, as amended: the settings [read_features] returns are a subset of
    the raw settings, not always a proper one: they equal the raw settings
    exactly when no asserted range-bearing setting lacks its range
    characteristic and the category rule clears no asserted setting. *)
Theorem C6_negotiated_equal_iff_nothing_pruned cli mt features raw :
  read_bitfields cli = Ok (features, raw) ->
  exists negotiated,
    read_features cli mt = Ok (features, negotiated)
    /\ Flag.subset negotiated raw
    /\ (negotiated = raw
        <-> absent_ranges cli raw = 0
            /\ Z.land raw (category_clears mt) = 0).
Proof.
  intros Hbits. eexists. split; [apply read_features_decoded, Hbits |].
  split; [apply negotiated_subset |].
  rewrite negotiated_ldiff by (eapply read_bitfields_valid, Hbits).
  rewrite ldiff_id_iff, Z.land_lor_distr_r, Z.lor_eq_0_iff.
  rewrite (Z.land_comm raw (absent_ranges cli raw)).
  rewrite (absent_ranges_asserted cli raw). reflexivity.
Qed.

(** C7: for a category asserting treadmill the settings [read_features]
    returns assert neither resistance nor power. *)
Theorem C7_treadmill_no_resistance_no_power cli mt features raw :
  read_bitfields cli = Ok (features, raw) ->
  Flag.contains mt TREADMILL = true ->
  exists negotiated,
    read_features cli mt = Ok (features, negotiated)
    /\ Flag.contains negotiated RESISTANCE = false
    /\ Flag.contains negotiated POWER = false
    /\ Z.land negotiated (Z.lor RESISTANCE POWER) = 0.
Proof.
  intros Hbits Htread. eexists.
  split; [apply read_features_decoded, Hbits |].
  pose proof (read_bitfields_valid cli features raw Hbits) as Hraw.
  assert (Hs : valid (remove_without_ranges cli raw)).
  { rewrite remove_without_ranges_ldiff by exact Hraw.
    apply valid_ldiff, Hraw. }
  rewrite (remove_untypical_treadmill mt _ Hs Htread).
  repeat split.
  - apply contains_ldiff_cleared; [discriminate | reflexivity].
  - apply contains_ldiff_cleared; [discriminate | reflexivity].
  - rewrite Z.ldiff_land, <- Z.land_assoc,
      (Z.land_comm (Z.lnot _)), Z.land_lnot_diag.
    apply Z.land_0_r.
Qed.

(** C10: for a category asserting none of treadmill, cross trainer,
    indoor bike and rower, [read_features] returns the settings as phase 1
    left them: the raw settings less the asserted range-bearing settings
    whose range characteristic is absent, every other bit as in the raw
    value. *)
Theorem C10_no_category_no_phase2 cli mt features raw :
  read_bitfields cli = Ok (features, raw) ->
  Flag.contains mt TREADMILL = false ->
  Flag.contains mt CROSS_TRAINER = false ->
  Flag.contains mt INDOOR_BIKE = false ->
  Flag.contains mt ROWER = false ->
  read_features cli mt = Ok (features, remove_without_ranges cli raw)
  /\ remove_without_ranges cli raw = Z.ldiff raw (absent_ranges cli raw)
  /\ (forall n,
        Z.testbit (remove_without_ranges cli raw) n
        = Z.testbit raw n && negb (Z.testbit (absent_ranges cli raw) n)).
Proof.
  intros Hbits HT HC HI HR.
  pose proof (read_bitfields_valid cli features raw Hbits) as Hraw.
  pose proof (remove_without_ranges_ldiff cli raw Hraw) as Hphase1.
  split; [| split].
  - rewrite (read_features_decoded cli mt features raw Hbits).
    unfold remove_untypical. rewrite HT, HC, HI, HR. reflexivity.
  - exact Hphase1.
  - intros n. rewrite Hphase1.
    destruct (Z.le_gt_cases 0 n) as [Hn | Hn].
    + apply Z.ldiff_spec.
    + rewrite !Z.testbit_neg_r by lia. reflexivity.
Qed.

End NegotiationProperties.

(** *** The properties on the example devices *)

Lemma example_machine_type_flags : @machine_type_flags Example.machine_type.
Proof.
  unfold machine_type_flags, single_bit; cbn.
  repeat split; try discriminate.
  - exists 0. split; [discriminate | reflexivity].
  - exists 1. split; [discriminate | reflexivity].
  - exists 5. split; [discriminate | reflexivity].
  - exists 4. split; [discriminate | reflexivity].
Defined.

Lemma example_valid_15 : MachineSettings.valid 15.
Proof. unfold MachineSettings.valid. vm_compute. split; discriminate. Defined.

Lemma C3_indoor_bike_scenario_witness :
  @read_features Example.const Example.machine_type Example.bike
    (@INDOOR_BIKE Example.machine_type)
  = Ok (0, 0).
Proof.
  apply (@C3_indoor_bike_scenario Example.const Example.machine_type
           Example.bike 0 (@SPEED_RANGE_UUID Example.const)
           example_machine_type_flags);
    vm_compute; reflexivity.
Defined.

Lemma C4_first_matching_rule_only_witness :
  @remove_untypical Example.machine_type 33 15 = 3
  /\ @remove_untypical Example.machine_type 48 15 = 12.
Proof.
  pose proof (@C4_first_matching_rule_only Example.machine_type 33 15
                example_valid_15) as (_ & Htread & _).
  pose proof (@C4_first_matching_rule_only Example.machine_type 48 15
                example_valid_15) as (_ & _ & Hother & _).
  split.
  - apply (Htread eq_refl).
  - apply (Hother eq_refl eq_refl).
Defined.

(** C4 as stated fails: for a category asserting none of the four, such as
    the empty category or a step climber, no rule set is applied; the
    settings come back unchanged, while the treadmill rule set would leave
    3 of them and the other rule set 12. *)
Lemma C4_no_category_no_rule :
  @first_match Example.machine_type 0 = None
  /\ @first_match Example.machine_type Example.STEP_CLIMBER = None
  /\ @remove_untypical Example.machine_type 0 15 = 15
  /\ @remove_untypical Example.machine_type Example.STEP_CLIMBER 15 = 15
  /\ Flag.and_ 15
       (MachineSettings.invert
          (Z.lor MachineSettings.RESISTANCE MachineSettings.POWER)) = 3
  /\ Flag.and_ 15
       (MachineSettings.invert
          (Z.lor MachineSettings.SPEED MachineSettings.INCLINE)) = 12.
Proof. repeat split; vm_compute; reflexivity. Qed.

Lemma C5_negotiated_subset_of_raw_witness :
  exists negotiated,
    @read_features Example.const Example.machine_type Example.bike 32
    = Ok (0, negotiated)
    /\ Flag.subset negotiated 7
    /\ (forall flag, Flag.contains negotiated flag = true ->
                     Flag.contains 7 flag = true)
    /\ (forall n, Z.testbit negotiated n = true -> Z.testbit 7 n = true).
Proof.
  apply (@C5_negotiated_subset_of_raw Example.const Example.machine_type
           Example.bike 32 0 7).
  vm_compute. reflexivity.
Defined.

Lemma C6_negotiated_equal_iff_nothing_pruned_witness :
  exists negotiated,
    @read_features Example.const Example.machine_type Example.treadmill 1
    = Ok (0, negotiated)
    /\ Flag.subset negotiated 19
    /\ (negotiated = 19
        <-> @absent_ranges Example.const Example.treadmill 19 = 0
            /\ Z.land 19 (@category_clears Example.machine_type 1) = 0).
Proof.
  apply (@C6_negotiated_equal_iff_nothing_pruned Example.const
           Example.machine_type Example.treadmill 1 0 19).
  vm_compute. reflexivity.
Defined.

(** C6 as stated fails: a treadmill advertising speed, incline and heart
    rate and exposing the three ranges keeps all its settings, and a device
    advertising nothing has nothing to lose. *)
Lemma C6_nothing_pruned :
  @read_bitfields Example.const Example.treadmill = Ok (0, 19)
  /\ @read_features Example.const Example.machine_type Example.treadmill
       (@TREADMILL Example.machine_type)
     = Ok (0, 19)
  /\ @read_bitfields Example.const Example.bare = Ok (0, 0)
  /\ @read_features Example.const Example.machine_type Example.bare
       (@INDOOR_BIKE Example.machine_type)
     = Ok (0, 0).
Proof. repeat split; vm_compute; reflexivity. Qed.

Lemma C7_treadmill_no_resistance_no_power_witness :
  exists negotiated,
    @read_features Example.const Example.machine_type Example.short_power 1
    = Ok (0, negotiated)
    /\ Flag.contains negotiated MachineSettings.RESISTANCE = false
    /\ Flag.contains negotiated MachineSettings.POWER = false
    /\ Z.land negotiated
         (Z.lor MachineSettings.RESISTANCE MachineSettings.POWER) = 0.
Proof.
  apply (@C7_treadmill_no_resistance_no_power Example.const
           Example.machine_type Example.short_power 1 0 8);
    vm_compute; reflexivity.
Defined.

Lemma C10_no_category_no_phase2_witness :
  @read_features Example.const Example.machine_type Example.bike
    Example.STEP_CLIMBER
  = Ok (0, @remove_without_ranges Example.const Example.bike 7).
Proof.
  apply (@C10_no_category_no_phase2 Example.const Example.machine_type
           Example.bike Example.STEP_CLIMBER 0 7);
    vm_compute; reflexivity.
Defined.

(** ** The number serializer *)

Lemma deserialize_short f (bio : BytesIO.t) :
  (length bio < NumSerializer.byte_width f)%nat ->
  NumSerializer.deserialize f bio = Raise TruncatedBufferError.
Proof.
  intros Hlen.
  unfold NumSerializer.deserialize, NumSerializer.deserialize_int, BytesIO.read.
  rewrite length_take.
  replace (_ <? _)%nat with true by (symmetry; apply Nat.ltb_lt; lia).
  reflexivity.
Qed.

Lemma deserialize_enough f (bio : BytesIO.t) :
  (NumSerializer.byte_width f <= length bio)%nat ->
  NumSerializer.deserialize f bio
  = Ok (NumSerializer.scale f
          (NumSerializer.from_bytes (NumSerializer.signed f)
             (take (NumSerializer.byte_width f) bio)),
        drop (NumSerializer.byte_width f) bio).
Proof.
  intros Hlen.
  unfold NumSerializer.deserialize, NumSerializer.deserialize_int, BytesIO.read.
  rewrite length_take.
  replace (_ <? _)%nat with false by (symmetry; apply Nat.ltb_ge; lia).
  reflexivity.
Qed.

(** Three numbers cannot be read from fewer than three widths of bytes. *)
Lemma three_deserialize_short {A : Type} f (bio : BytesIO.t)
    (k : Q -> Q -> Q -> BytesIO.t -> result A) :
  (length bio < 3 * NumSerializer.byte_width f)%nat ->
  ('(v0, bio) ← NumSerializer.deserialize f bio;
   '(v1, bio) ← NumSerializer.deserialize f bio;
   '(v2, bio) ← NumSerializer.deserialize f bio;
   k v0 v1 v2 bio) = Raise TruncatedBufferError.
Proof.
  intros Hlen.
  destruct (Nat.lt_ge_cases (length bio) (NumSerializer.byte_width f))
    as [H0 | H0].
  { rewrite (deserialize_short f bio H0). reflexivity. }
  rewrite (deserialize_enough f bio H0), bind_ret_l.
  set (bio1 := drop _ bio).
  assert (Hlen1 : length bio1 = (length bio - NumSerializer.byte_width f)%nat)
    by apply length_drop.
  destruct (Nat.lt_ge_cases (length bio1) (NumSerializer.byte_width f))
    as [H1 | H1].
  { rewrite (deserialize_short f bio1 H1). reflexivity. }
  rewrite (deserialize_enough f bio1 H1), bind_ret_l.
  set (bio2 := drop _ bio1).
  assert (Hlen2 : length bio2 = (length bio1 - NumSerializer.byte_width f)%nat)
    by apply length_drop.
  rewrite (deserialize_short f bio2) by lia. reflexivity.
Qed.

(** ** Properties of [read_supported_ranges] *)

Lemma range_short_buffer cli uuid num data :
  read_gatt_char cli uuid = Ok data ->
  (length data < 3 * NumSerializer.byte_width num)%nat ->
  _range cli uuid num = Raise TruncatedBufferError.
Proof.
  intros Hread Hlen. unfold _range.
  rewrite Hread, bind_ret_l.
  apply (three_deserialize_short num data); exact Hlen.
Qed.

(** A buffer of exactly three widths yields a range. *)
Lemma range_exact_buffer cli uuid num data :
  read_gatt_char cli uuid = Ok data ->
  length data = (3 * NumSerializer.byte_width num)%nat ->
  exists r, _range cli uuid num = Ok r.
Proof.
  intros Hread Hlen. unfold _range.
  rewrite Hread, bind_ret_l.
  rewrite (deserialize_enough num data) by lia.
  rewrite bind_ret_l.
  set (bio1 := drop _ data).
  assert (Hlen1 : length bio1 = (2 * NumSerializer.byte_width num)%nat)
    by (unfold bio1; rewrite length_drop; lia).
  rewrite (deserialize_enough num bio1) by lia.
  rewrite bind_ret_l.
  set (bio2 := drop _ bio1).
  assert (Hlen2 : length bio2 = NumSerializer.byte_width num)
    by (unfold bio2; rewrite length_drop; lia).
  rewrite (deserialize_enough num bio2) by lia.
  rewrite bind_ret_l.
  set (bio3 := drop _ bio2).
  assert (Hnil : bio3 = []).
  { apply length_zero_iff_nil. unfold bio3. rewrite length_drop. lia. }
  unfold BytesIO.read. rewrite Hnil. cbn. eauto.
Qed.

Lemma read_range_short_buffer cli settings flag key uuid num data res :
  read_gatt_char cli uuid = Ok data ->
  (length data < 3 * NumSerializer.byte_width num)%nat ->
  Flag.contains settings flag = true ->
  read_range cli settings flag key uuid num res = Raise TruncatedBufferError.
Proof.
  intros Hread Hlen Hin. unfold read_range.
  rewrite Hin, (range_short_buffer cli uuid num data Hread Hlen).
  reflexivity.
Qed.

Lemma read_range_dom cli settings flag key uuid num
    (res res' : gmap string SettingRange) :
  read_range cli settings flag key uuid num res = Ok res' ->
  dom res' = (if Flag.contains settings flag then {[key]} else ∅) ∪ dom res.
Proof.
  unfold read_range. destruct (Flag.contains settings flag).
  - intros E. bind_inv E. injection E as <-. apply dom_insert_L.
  - intros [= <-]. symmetry. apply (left_id_L ∅ (∪)).
Qed.

Lemma keys_functional {A B : Type} (rows : list (A * B)) a a' k :
  NoDup (snd <$> rows) -> (a, k) ∈ rows -> (a', k) ∈ rows -> a = a'.
Proof.
  induction rows as [| [a0 k0] rows IH]; cbn; intros Hnd Hin Hin'.
  - inversion Hin.
  - apply NoDup_cons in Hnd as [Hfresh Hnd].
    apply elem_of_cons in Hin as [Heq | Hin];
      apply elem_of_cons in Hin' as [Heq' | Hin'].
    + congruence.
    + injection Heq as -> ->. exfalso. apply Hfresh.
      apply (list_elem_of_fmap_2 snd rows (a', k0)), Hin'.
    + injection Heq' as -> ->. exfalso. apply Hfresh.
      apply (list_elem_of_fmap_2 snd rows (a, k0)), Hin.
    + auto.
Qed.

Section RangeProperties.

Context {const : Const}.

Import MachineSettings.

Implicit Types (cli : BleakClient) (settings : Z).

Lemma asserted_keys_elem settings key :
  key ∈ asserted_keys settings
  <-> exists flag, (flag, key) ∈ range_settings
                   /\ Flag.contains settings flag = true.
Proof.
  unfold asserted_keys.
  rewrite elem_of_list_to_set, list_elem_of_fmap. split.
  - intros ([flag k] & -> & Hin).
    apply list_elem_of_In, filter_In in Hin as [Hin Hc].
    exists flag. split; [apply list_elem_of_In, Hin | exact Hc].
  - intros (flag & Hin & Hc). exists (flag, key). split; [reflexivity |].
    apply list_elem_of_In, filter_In. split; [| exact Hc].
    apply list_elem_of_In, Hin.
Qed.

Lemma read_supported_ranges_dom cli settings table :
  read_supported_ranges cli settings = Ok table ->
  dom table = asserted_keys settings.
Proof.
  unfold read_supported_ranges. intros E. bind_inv E.
  injection E as <-.
  repeat match goal with
         | Hr : read_range _ _ _ _ _ _ _ = Ok _ |- _ =>
             apply read_range_dom in Hr
         end.
  unfold asserted_keys, range_settings. cbn [List.filter fst snd].
  repeat match goal with
         | Hd : dom ?m = _ |- _ => rewrite Hd; clear Hd
         end.
  rewrite dom_empty_L.
  destruct (Flag.contains settings SPEED),
    (Flag.contains settings INCLINE),
    (Flag.contains settings RESISTANCE),
    (Flag.contains settings POWER),
    (Flag.contains settings HEART_RATE);
    cbn [fmap list_fmap snd list_to_set foldr]; set_solver.
Qed.

(** C8: a range characteristic holding fewer bytes than three numbers of
    the setting's format makes [_range] raise [TruncatedBufferError]; the
    block of [read_supported_ranges] reading it raises the same, and
    [read_supported_ranges] returns no table. *)
Theorem C8_short_buffer_is_truncated cli uuid num data :
  read_gatt_char cli uuid = Ok data ->
  (length data < 3 * NumSerializer.byte_width num)%nat ->
  _range cli uuid num = Raise TruncatedBufferError
  /\ (forall settings flag key res,
        Flag.contains settings flag = true ->
        read_range cli settings flag key uuid num res
        = Raise TruncatedBufferError)
  /\ (forall settings flag key,
        (flag, key, uuid, num) ∈ range_rows ->
        Flag.contains settings flag = true ->
        exists e, read_supported_ranges cli settings = Raise e).
Proof.
  intros Hread Hlen.
  split; [exact (range_short_buffer cli uuid num data Hread Hlen) |].
  split.
  { intros settings flag key res Hin.
    exact (read_range_short_buffer cli settings flag key uuid num data res
             Hread Hlen Hin). }
  intros settings flag key Hrow Hin.
  assert (Hfail : forall res,
             read_range cli settings flag key uuid num res
             = Raise TruncatedBufferError).
  { intros res.
    exact (read_range_short_buffer cli settings flag key uuid num data res
             Hread Hlen Hin). }
  unfold read_supported_ranges, range_rows in *.
  repeat (apply elem_of_cons in Hrow as [[= -> -> -> ->] | Hrow];
          [ rewrite ?bind_ret_l, Hfail; eauto
          | match goal with
            | |- context [read_range cli settings ?f ?k ?u ?n ?r ≫= _] =>
                destruct (read_range cli settings f k u n r);
                [rewrite bind_ret_l | eauto]
            end ]).
  inversion Hrow.
Qed.

(** C9: the keys of the table [read_supported_ranges] returns are
    exactly the keys of the range-bearing settings the settings value
    asserts: they are among the five keys, and the key of a setting is
    present if and only if the setting is asserted. *)
Theorem C9_table_keys_are_asserted_settings cli settings table :
  NoDup (snd <$> range_settings) ->
  read_supported_ranges cli settings = Ok table ->
  dom table = asserted_keys settings
  /\ dom table ⊆ list_to_set (snd <$> range_settings)
  /\ (forall flag key, (flag, key) ∈ range_settings ->
        key ∈ dom table <-> Flag.contains settings flag = true).
Proof.
  intros Hnd Hread.
  pose proof (read_supported_ranges_dom cli settings table Hread) as Hdom.
  split; [exact Hdom |]. rewrite Hdom. split.
  - intros key Hkey. apply asserted_keys_elem in Hkey as (flag & Hin & _).
    apply elem_of_list_to_set.
    apply (list_elem_of_fmap_2 snd range_settings (flag, key)), Hin.
  - intros flag key Hin. rewrite asserted_keys_elem. split.
    + intros (flag' & Hin' & Hc).
      rewrite (keys_functional range_settings flag flag' key Hnd Hin Hin').
      exact Hc.
    + intros Hc. exists flag. auto.
Qed.

End RangeProperties.

(** *** The properties on the example devices *)

Lemma example_keys_distinct :
  NoDup (snd <$> @range_settings Example.const).
Proof.
  apply NoDup_ListNoDup. cbn.
  repeat (constructor; [cbn; intuition discriminate |]).
  constructor.
Defined.

Lemma C8_short_buffer_is_truncated_witness :
  _range Example.short_power (@POWER_RANGE_UUID Example.const)
    NumSerializer.s2
  = Raise TruncatedBufferError
  /\ exists e,
       @read_supported_ranges Example.const Example.short_power
         MachineSettings.POWER
       = Raise e.
Proof.
  destruct (@C8_short_buffer_is_truncated Example.const Example.short_power
              (@POWER_RANGE_UUID Example.const) NumSerializer.s2
              [Byte.x00; Byte.x00; Byte.x64; Byte.x00; Byte.x01]
              eq_refl ltac:(cbn; lia))
    as (Hrange & _ & Hsurfaced).
  split; [exact Hrange |].
  apply (Hsurfaced MachineSettings.POWER MachineSettings.POWER
           (@TARGET_POWER Example.const)); [| reflexivity].
  apply list_elem_of_In. cbn. auto.
Defined.

Lemma C9_table_keys_are_asserted_settings_witness :
  exists table,
    @read_supported_ranges Example.const Example.treadmill 19 = Ok table
    /\ dom table = @asserted_keys Example.const 19
    /\ dom table ⊆ list_to_set (snd <$> @range_settings Example.const)
    /\ (forall flag key, (flag, key) ∈ @range_settings Example.const ->
          key ∈ dom table <-> Flag.contains 19 flag = true).
Proof.
  eexists. split; [vm_compute; reflexivity |].
  apply (@C9_table_keys_are_asserted_settings Example.const Example.treadmill
           19 _ example_keys_distinct).
  vm_compute. reflexivity.
Defined.



(** * Further properties *)

(** ** Numbering of [auto()] members *)

Lemma foldr_max_snoc (l : list Z) x :
  foldr Z.max 0 (l ++ [x]) = Z.max (foldr Z.max 0 l) (Z.max x 0).
Proof. induction l as [| a l IH]; cbn; [lia | rewrite IH; lia]. Qed.

Lemma powers_snoc (k : nat) :
  (fun i : nat => 2 ^ Z.of_nat i) <$> seq 0 (S k)
  = ((fun i : nat => 2 ^ Z.of_nat i) <$> seq 0 k) ++ [2 ^ Z.of_nat k].
Proof. rewrite seq_S, fmap_app. reflexivity. Qed.

Lemma foldr_max_powers (k : nat) :
  foldr Z.max 0 ((fun i : nat => 2 ^ Z.of_nat i) <$> seq 0 (S k))
  = 2 ^ Z.of_nat k.
Proof.
  induction k as [| k IH].
  - reflexivity.
  - rewrite powers_snoc, foldr_max_snoc, IH.
    assert (2 ^ Z.of_nat k <= 2 ^ Z.of_nat (S k))
      by (apply Z.pow_le_mono_r; lia).
    lia.
Qed.

Lemma generate_next_value_powers (k : nat) :
  Flag.generate_next_value ((fun i : nat => 2 ^ Z.of_nat i) <$> seq 0 k)
  = 2 ^ Z.of_nat k.
Proof.
  destruct k as [| k]; [reflexivity |].
  unfold Flag.generate_next_value.
  rewrite foldr_max_powers.
  change ((fun i : nat => 2 ^ Z.of_nat i) <$> seq 0 (S k))
    with (2 ^ Z.of_nat 0 :: ((fun i : nat => 2 ^ Z.of_nat i) <$> seq 1 k)).
  f_equal. unfold Flag.bit_length.
  pose proof (Z.pow_pos_nonneg 2 (Z.of_nat k) ltac:(lia) ltac:(lia)) as Hpos.
  replace (2 ^ Z.of_nat k =? 0) with false by (symmetry; apply Z.eqb_neq; lia).
  rewrite Z.abs_eq, Z.log2_pow2 by lia. lia.
Qed.

Lemma auto_values_from (names : list string) (k : nat) :
  Flag.auto_values names ((fun i : nat => 2 ^ Z.of_nat i) <$> seq 0 k)
  = imap (fun i name => (name, 2 ^ Z.of_nat (k + i))) names.
Proof.
  revert k. induction names as [| name names IH]; intros k; [reflexivity |].
  cbn [Flag.auto_values imap].
  rewrite generate_next_value_powers, Nat.add_0_r. f_equal.
  rewrite <- powers_snoc, IH.
  apply imap_ext. intros i x _. cbn.
  do 3 f_equal. lia.
Qed.

Lemma foldr_lor_acc (l : list Z) b :
  foldr Z.lor b l = Z.lor b (foldr Z.lor 0 l).
Proof.
  induction l as [| a l IH]; cbn.
  - symmetry. apply Z.lor_0_r.
  - rewrite IH, !Z.lor_assoc, (Z.lor_comm a b). reflexivity.
Qed.

Lemma lor_pow2_ones (n : Z) :
  0 <= n -> Z.lor (2 ^ n) (Z.ones n) = Z.ones (n + 1).
Proof.
  intros Hn. apply Z.bits_inj'. intros i Hi.
  rewrite Z.lor_spec, Z.pow2_bits_eqb, !Z.testbit_ones_nonneg by lia.
  destruct (Z.eqb_spec n i), (Z.ltb_spec i n), (Z.ltb_spec i (n + 1));
    cbn; lia || reflexivity.
Qed.

Lemma foldr_lor_powers (n : nat) :
  foldr Z.lor 0 ((fun i : nat => 2 ^ Z.of_nat i) <$> seq 0 n)
  = Z.ones (Z.of_nat n).
Proof.
  induction n as [| n IH]; [reflexivity |].
  rewrite powers_snoc, foldr_app. cbn [foldr].
  rewrite foldr_lor_acc, IH, Z.lor_0_r, lor_pow2_ones by lia.
  f_equal. lia.
Qed.

Lemma imap_snd_powers (names : list string) (k : nat) :
  snd <$> imap (fun i name => (name, 2 ^ Z.of_nat (k + i))) names
  = (fun i : nat => 2 ^ Z.of_nat i) <$> seq k (length names).
Proof.
  revert k. induction names as [| name names IH]; intros k; [reflexivity |].
  cbn [imap length seq fmap list_fmap snd]. rewrite Nat.add_0_r. f_equal.
  rewrite <- IH. f_equal. apply imap_ext. intros i x _. cbn.
  do 2 f_equal. lia.
Qed.

Lemma auto_values_imap (names : list string) :
  Flag.auto_values names []
  = imap (fun (i : nat) name => (name, 2 ^ Z.of_nat (0 + i))) names.
Proof. exact (auto_values_from names 0). Qed.

Lemma auto_class_flag_mask (names : list string) :
  Flag.flag_mask (Flag.Cls (Flag.auto_values names []))
  = Z.ones (Z.of_nat (length names)).
Proof.
  unfold Flag.flag_mask. cbn [Flag.members].
  rewrite auto_values_imap, imap_snd_powers.
  apply foldr_lor_powers.
Qed.

Lemma bit_length_ones (n : Z) :
  0 <= n -> 2 ^ Flag.bit_length (Z.ones n) - 1 = Z.ones n.
Proof.
  intros Hn. rewrite (Z.ones_equiv n). unfold Flag.bit_length.
  destruct (Z.eq_dec n 0) as [-> | Hnz]; [reflexivity |].
  pose proof (Z.pow_gt_1 2 n ltac:(lia)) as [Hgt _].
  specialize (Hgt ltac:(lia)).
  replace (Z.pred (2 ^ n) =? 0) with false by (symmetry; apply Z.eqb_neq; lia).
  rewrite Z.abs_eq, Z.log2_pred_pow2 by lia.
  replace (Z.pred n + 1) with n by lia. lia.
Qed.

Lemma auto_class_all_bits (names : list string) :
  Flag.all_bits (Flag.Cls (Flag.auto_values names []))
  = Z.ones (Z.of_nat (length names)).
Proof.
  unfold Flag.all_bits. rewrite auto_class_flag_mask.
  apply bit_length_ones. lia.
Qed.

(** X1: in a flag class whose body is a list of [auto()] members, the
    member declared at position [i] (from 0) has the value [2 ^ i]; so the
    members of [MachineFeatures] and of [MachineSettings] occupy the bits
    0, 1, 2, ... in the order of their declaration. *)
Theorem X1_auto_member_is_bit_of_its_position (names : list string) :
  length (Flag.auto_values names []) = length names
  /\ forall (i : nat) (name : string),
       names !! i = Some name ->
       Flag.auto_values names [] !! i = Some (name, 2 ^ Z.of_nat i).
Proof.
  rewrite auto_values_imap. split.
  - apply length_imap.
  - intros i name Hi. rewrite list_lookup_imap, Hi. reflexivity.
Qed.

(** X2: a strict flag class of [n] [auto()] members, called on a
    non-negative integer, returns that integer when it is below [2 ^ n] and
    raises [ValueError] otherwise; [MachineFeatures] and [MachineSettings]
    are such classes with [n = 17]. *)
Theorem X2_auto_class_accepts_below_two_to_n (names : list string) (v : Z) :
  0 <= v ->
  Flag.call (Flag.Cls (Flag.auto_values names [])) v
  = if v <? 2 ^ Z.of_nat (length names) then Ok v else Raise ValueError.
Proof.
  intros Hv.
  rewrite (call_nonneg _ (Z.of_nat (length names)) ltac:(lia)
             (auto_class_flag_mask names) (auto_class_all_bits names) v Hv).
  rewrite Z.ones_equiv.
  destruct (Z.leb_spec v (Z.pred (2 ^ Z.of_nat (length names))));
    destruct (Z.ltb_spec v (2 ^ Z.of_nat (length names)));
    reflexivity || lia.
Qed.

Lemma X2_auto_class_accepts_below_two_to_n_witness :
  MachineSettings.call 131071 = Ok 131071
  /\ MachineFeatures.call 131072 = Raise ValueError.
Proof.
  split.
  - apply (X2_auto_class_accepts_below_two_to_n MachineSettings.names 131071).
    vm_compute. congruence.
  - apply (X2_auto_class_accepts_below_two_to_n MachineFeatures.names 131072).
    vm_compute. congruence.
Defined.

(** ** [MovementDirection] *)

(** X3: [MovementDirection] round-trips with its integer value, and is
    strict: [MovementDirection(m.value)] is [m], a member returned for [v]
    has the value [v], and every integer other than 0 and 1 raises
    [ValueError]. *)
Theorem X3_movement_direction_round_trip :
  (forall m, MovementDirection.call (MovementDirection.value m) = Ok m)
  /\ (forall v m, MovementDirection.call v = Ok m ->
                  MovementDirection.value m = v)
  /\ (forall v, v <> 0 -> v <> 1 ->
                MovementDirection.call v = Raise ValueError).
Proof.
  split; [| split].
  - intros []; reflexivity.
  - intros v m E.
    destruct v as [| [p | p |] | p]; cbn in E; try discriminate;
      injection E as <-; reflexivity.
  - intros v H0 H1.
    destruct v as [| [p | p |] | p]; try reflexivity; congruence.
Qed.

(** ** Which settings survive the negotiation *)

Lemma land_pow2 s i :
  0 <= i -> Z.land (2 ^ i) s = if Z.testbit s i then 2 ^ i else 0.
Proof.
  intros Hi. apply Z.bits_inj'. intros n Hn.
  rewrite Z.land_spec, Z.pow2_bits_eqb by assumption.
  destruct (Z.eqb_spec i n) as [-> | Hne].
  - destruct (Z.testbit s n); cbn.
    + rewrite Z.pow2_bits_eqb, Z.eqb_refl by assumption. reflexivity.
    + symmetry. apply Z.bits_0.
  - destruct (Z.testbit s i); cbn.
    + rewrite Z.pow2_bits_eqb by assumption.
      symmetry. apply Z.eqb_neq, Hne.
    + symmetry. apply Z.bits_0.
Qed.

Lemma contains_pow2 s i :
  0 <= i -> Flag.contains s (2 ^ i) = Z.testbit s i.
Proof.
  intros Hi. unfold Flag.contains. rewrite land_pow2 by assumption.
  pose proof (Z.pow_pos_nonneg 2 i ltac:(lia) Hi).
  destruct (Z.testbit s i); [apply Z.eqb_refl | apply Z.eqb_neq; lia].
Qed.

Section Survival.

Context {const : Const} {machine_type : MachineType}.

Import MachineSettings.

Implicit Types (cli : BleakClient) (mt raw settings features : Z).

Lemma testbit_without_range cli settings flag uuid i :
  Z.testbit (without_range cli settings flag uuid) i
  = Flag.contains settings flag
    && bool_decide (get_characteristic cli uuid = None)
    && Z.testbit flag i.
Proof.
  unfold without_range. destruct (_ && _); [reflexivity | apply Z.bits_0].
Qed.

Lemma category_clears_eq mt :
  category_clears mt
  = if Flag.contains mt TREADMILL then Z.lor RESISTANCE POWER
    else if Flag.contains mt CROSS_TRAINER || Flag.contains mt INDOOR_BIKE
            || Flag.contains mt ROWER
         then Z.lor SPEED INCLINE
         else 0.
Proof.
  unfold category_clears, first_match, category_rules.
  cbn [List.find fst snd].
  destruct (Flag.contains mt TREADMILL); [reflexivity |].
  destruct (Flag.contains mt CROSS_TRAINER); [reflexivity |].
  destruct (Flag.contains mt INDOOR_BIKE); [reflexivity |].
  destruct (Flag.contains mt ROWER); reflexivity.
Qed.

Lemma negotiated_testbit cli mt raw i :
  valid raw ->
  Z.testbit (remove_untypical mt (remove_without_ranges cli raw)) i
  = Z.testbit raw i
    && negb (Z.testbit (absent_ranges cli raw) i)
    && negb (Z.testbit (category_clears mt) i).
Proof.
  intros Hraw. rewrite negotiated_ldiff by exact Hraw.
  destruct (Z.le_gt_cases 0 i) as [Hi | Hi].
  - rewrite Z.ldiff_spec, Z.lor_spec.
    destruct (Z.testbit raw i), (Z.testbit (absent_ranges cli raw) i),
      (Z.testbit (category_clears mt) i); reflexivity.
  - rewrite !Z.testbit_neg_r by lia. reflexivity.
Qed.

(** The bit of one of the five range-bearing settings after both phases. *)
Ltac survival_bit :=
  intros Hraw;
  rewrite negotiated_testbit by exact Hraw;
  unfold absent_ranges;
  rewrite !Z.lor_spec, !testbit_without_range, category_clears_eq;
  repeat match goal with
         | |- context [Flag.contains ?m ?c] =>
             lazymatch c with
             | TREADMILL => idtac
             | CROSS_TRAINER => idtac
             | INDOOR_BIKE => idtac
             | ROWER => idtac
             end;
             destruct (Flag.contains m c)
         end;
  cbn [orb negb];
  repeat match goal with
         | |- context [Z.testbit ?flag ?i] =>
             let b := eval vm_compute in (Z.testbit flag i) in
             lazymatch b with
             | true => change (Z.testbit flag i) with true
             | false => change (Z.testbit flag i) with false
             end
         end;
  rewrite ?andb_false_r, ?orb_false_r, ?andb_true_r; cbn [orb negb].

Ltac survival flag i :=
  intros Hraw; change flag with (2 ^ i) at 1;
  rewrite (contains_pow2 _ i) by lia;
  revert Hraw; survival_bit; try reflexivity;
  change flag with (2 ^ i); rewrite (contains_pow2 _ i) by lia;
  repeat match goal with
         | |- context [Z.testbit ?s i] => destruct (Z.testbit s i)
         | |- context [bool_decide ?P] => destruct (bool_decide P)
         end; reflexivity.

Lemma negotiated_contains_speed cli mt raw :
  valid raw ->
  Flag.contains (remove_untypical mt (remove_without_ranges cli raw)) SPEED
  = Flag.contains raw SPEED
    && negb (bool_decide (get_characteristic cli SPEED_RANGE_UUID = None))
    && (Flag.contains mt TREADMILL
        || negb (Flag.contains mt CROSS_TRAINER || Flag.contains mt INDOOR_BIKE
                 || Flag.contains mt ROWER)).
Proof. survival SPEED 0. Qed.

Lemma negotiated_contains_incline cli mt raw :
  valid raw ->
  Flag.contains (remove_untypical mt (remove_without_ranges cli raw)) INCLINE
  = Flag.contains raw INCLINE
    && negb (bool_decide (get_characteristic cli INCLINATION_RANGE_UUID = None))
    && (Flag.contains mt TREADMILL
        || negb (Flag.contains mt CROSS_TRAINER || Flag.contains mt INDOOR_BIKE
                 || Flag.contains mt ROWER)).
Proof. survival INCLINE 1. Qed.

Lemma negotiated_contains_resistance cli mt raw :
  valid raw ->
  Flag.contains (remove_untypical mt (remove_without_ranges cli raw)) RESISTANCE
  = Flag.contains raw RESISTANCE
    && negb (bool_decide
               (get_characteristic cli RESISTANCE_LEVEL_RANGE_UUID = None))
    && negb (Flag.contains mt TREADMILL).
Proof. survival RESISTANCE 2. Qed.

Lemma negotiated_contains_power cli mt raw :
  valid raw ->
  Flag.contains (remove_untypical mt (remove_without_ranges cli raw)) POWER
  = Flag.contains raw POWER
    && negb (bool_decide (get_characteristic cli POWER_RANGE_UUID = None))
    && negb (Flag.contains mt TREADMILL).
Proof. survival POWER 3. Qed.

Lemma negotiated_contains_heart_rate cli mt raw :
  valid raw ->
  Flag.contains (remove_untypical mt (remove_without_ranges cli raw)) HEART_RATE
  = Flag.contains raw HEART_RATE
    && negb (bool_decide (get_characteristic cli HEART_RATE_RANGE_UUID = None)).
Proof. survival HEART_RATE 4. Qed.

End Survival.

Lemma not_none_is_some {A : Type} `{EqDecision A} (o : option A) :
  negb (bool_decide (o = None)) = true <-> is_Some o.
Proof.
  destruct o as [a |].
  - rewrite bool_decide_eq_false_2 by discriminate. split; eauto.
  - rewrite bool_decide_eq_true_2 by reflexivity.
    split; [discriminate | intros [a [=]]].
Qed.

Section NegotiationMore.

Context {const : Const} {machine_type : MachineType}.

Import MachineSettings.

Implicit Types (cli : BleakClient) (mt raw settings features : Z).

Lemma read_bitfields_features_valid cli features raw :
  read_bitfields cli = Ok (features, raw) ->
  0 <= features <= Z.ones 17.
Proof.
  unfold read_bitfields. intros E.
  destruct (get_characteristic cli FEATURE_UUID) as [c |]; [| discriminate].
  bind_inv E. injection E as [= -> ->].
  match goal with
  | Hcall : MachineFeatures.call ?v = Ok features |- _ =>
      exact (call_Ok_range MachineFeatures.class 17 ltac:(lia)
               (proj1 features_mask) (proj2 features_mask) v features Hcall)
  end.
Qed.

Lemma negotiated_valid cli mt raw :
  valid raw -> valid (remove_untypical mt (remove_without_ranges cli raw)).
Proof.
  intros Hraw. rewrite negotiated_ldiff by exact Hraw.
  apply valid_ldiff, Hraw.
Qed.

Lemma read_features_inv cli mt features negotiated :
  read_features cli mt = Ok (features, negotiated) ->
  exists raw,
    read_bitfields cli = Ok (features, raw)
    /\ negotiated = remove_untypical mt (remove_without_ranges cli raw).
Proof.
  unfold read_features. intros E.
  apply bind_Ok in E as ([f raw] & Ebits & E).
  injection E as [= -> <-]. eauto.
Qed.

(** The pruned flags are range-bearing settings. *)
Lemma pruned_within_five cli mt raw :
  Z.land (Z.lor (absent_ranges cli raw) (category_clears mt))
    (Z.lor SPEED (Z.lor INCLINE (Z.lor RESISTANCE (Z.lor POWER HEART_RATE))))
  = Z.lor (absent_ranges cli raw) (category_clears mt).
Proof.
  unfold absent_ranges. rewrite category_clears_eq.
  destruct (without_range_cases cli raw SPEED SPEED_RANGE_UUID) as [-> | ->],
    (without_range_cases cli raw INCLINE INCLINATION_RANGE_UUID) as [-> | ->],
    (without_range_cases cli raw RESISTANCE RESISTANCE_LEVEL_RANGE_UUID)
      as [-> | ->],
    (without_range_cases cli raw POWER POWER_RANGE_UUID) as [-> | ->],
    (without_range_cases cli raw HEART_RATE HEART_RATE_RANGE_UUID) as [-> | ->];
    destruct (Flag.contains mt TREADMILL);
    try reflexivity;
    destruct (_ || _); reflexivity.
Qed.

Lemma negotiated_absent_ranges cli mt raw :
  valid raw ->
  absent_ranges cli (remove_untypical mt (remove_without_ranges cli raw)) = 0.
Proof.
  intros Hraw. unfold absent_ranges, without_range.
  rewrite negotiated_contains_speed, negotiated_contains_incline,
    negotiated_contains_resistance, negotiated_contains_power,
    negotiated_contains_heart_rate by exact Hraw.
  repeat match goal with
         | |- context [bool_decide ?P] => destruct (bool_decide P)
         end;
    cbn [negb]; rewrite ?andb_false_r; reflexivity.
Qed.

Lemma negotiated_land_category_clears cli mt raw :
  valid raw ->
  Z.land (remove_untypical mt (remove_without_ranges cli raw))
    (category_clears mt) = 0.
Proof.
  intros Hraw. apply Z.bits_inj'. intros n Hn.
  rewrite Z.land_spec, negotiated_testbit, Z.bits_0 by exact Hraw.
  destruct (Z.testbit (category_clears mt) n);
    rewrite ?andb_false_r; reflexivity.
Qed.

Lemma negotiated_idempotent cli mt raw :
  valid raw ->
  let negotiated := remove_untypical mt (remove_without_ranges cli raw) in
  remove_untypical mt (remove_without_ranges cli negotiated) = negotiated.
Proof.
  intros Hraw negotiated.
  rewrite negotiated_ldiff by (apply negotiated_valid, Hraw).
  apply ldiff_id_iff. subst negotiated.
  rewrite negotiated_absent_ranges by exact Hraw.
  rewrite Z.lor_0_l. apply negotiated_land_category_clears, Hraw.
Qed.

Lemma phases_commute cli mt raw :
  valid raw ->
  remove_without_ranges cli (remove_untypical mt raw)
  = remove_untypical mt (remove_without_ranges cli raw).
Proof.
  intros Hraw. apply Z.bits_inj'. intros n Hn.
  rewrite negotiated_testbit by exact Hraw.
  rewrite remove_untypical_ldiff by exact Hraw.
  rewrite remove_without_ranges_ldiff by (apply valid_ldiff, Hraw).
  rewrite !Z.ldiff_spec.
  destruct (Z.testbit raw n) eqn:Eraw; cbn [andb]; [| reflexivity].
  destruct (Z.testbit (category_clears mt) n) eqn:Ecat; cbn [andb negb];
    [rewrite andb_false_r; reflexivity |].
  rewrite andb_true_r. f_equal.
  unfold absent_ranges. rewrite !Z.lor_spec, !testbit_without_range.
  assert (Hsame : forall flag i, 0 <= i -> flag = 2 ^ i ->
             Flag.contains (Z.ldiff raw (category_clears mt)) flag
               && Z.testbit flag n
             = Flag.contains raw flag && Z.testbit flag n).
  { intros flag i Hi ->. rewrite !contains_pow2, Z.ldiff_spec by assumption.
    rewrite Z.pow2_bits_eqb by assumption.
    destruct (Z.eqb_spec i n) as [-> | Hne];
      [rewrite Ecat, !andb_true_r; reflexivity
      | rewrite !andb_false_r; reflexivity]. }
  assert (Hone : forall flag uuid i, 0 <= i -> flag = 2 ^ i ->
             Flag.contains (Z.ldiff raw (category_clears mt)) flag
               && bool_decide (get_characteristic cli uuid = None)
               && Z.testbit flag n
             = Flag.contains raw flag
               && bool_decide (get_characteristic cli uuid = None)
               && Z.testbit flag n).
  { intros flag uuid i Hi Hflag.
    rewrite <- !andb_assoc, !(andb_comm (bool_decide _)), !andb_assoc.
    rewrite (Hsame flag i Hi Hflag). reflexivity. }
  rewrite (Hone SPEED _ 0), (Hone INCLINE _ 1), (Hone RESISTANCE _ 2),
    (Hone POWER _ 3), (Hone HEART_RATE _ 4) by (lia || reflexivity).
  reflexivity.
Qed.

End NegotiationMore.

Section NegotiationExtras.

Context {const : Const} {machine_type : MachineType}.

Import MachineSettings.

Implicit Types (cli : BleakClient) (mt raw settings features : Z).

(** X4: whatever the category, heart rate is asserted in the settings
    [read_features] returns exactly when the device advertises it and
    exposes the heart-rate range characteristic. *)
Theorem X4_heart_rate_kept_iff_range_exposed cli mt features raw :
  read_bitfields cli = Ok (features, raw) ->
  exists negotiated,
    read_features cli mt = Ok (features, negotiated)
    /\ (Flag.contains negotiated HEART_RATE = true
        <-> Flag.contains raw HEART_RATE = true
            /\ is_Some (get_characteristic cli HEART_RATE_RANGE_UUID)).
Proof.
  intros Hbits. eexists. split; [apply read_features_decoded, Hbits |].
  rewrite negotiated_contains_heart_rate
    by (eapply read_bitfields_valid, Hbits).
  rewrite andb_true_iff, not_none_is_some. reflexivity.
Qed.

(** X5: speed, and likewise incline, is asserted in the settings
    [read_features] returns exactly when the device advertises it, exposes
    its range characteristic, and the category either asserts treadmill or
    asserts none of cross trainer, indoor bike and rower. *)
Theorem X5_speed_incline_kept_iff cli mt features raw :
  read_bitfields cli = Ok (features, raw) ->
  exists negotiated,
    read_features cli mt = Ok (features, negotiated)
    /\ (Flag.contains negotiated SPEED = true
        <-> Flag.contains raw SPEED = true
            /\ is_Some (get_characteristic cli SPEED_RANGE_UUID)
            /\ (Flag.contains mt TREADMILL = true
                \/ (Flag.contains mt CROSS_TRAINER = false
                    /\ Flag.contains mt INDOOR_BIKE = false
                    /\ Flag.contains mt ROWER = false)))
    /\ (Flag.contains negotiated INCLINE = true
        <-> Flag.contains raw INCLINE = true
            /\ is_Some (get_characteristic cli INCLINATION_RANGE_UUID)
            /\ (Flag.contains mt TREADMILL = true
                \/ (Flag.contains mt CROSS_TRAINER = false
                    /\ Flag.contains mt INDOOR_BIKE = false
                    /\ Flag.contains mt ROWER = false))).
Proof.
  intros Hbits.
  eexists. split; [apply read_features_decoded, Hbits |].
  pose proof (read_bitfields_valid cli features raw Hbits) as Hraw.
  assert (Hcat : Flag.contains mt TREADMILL
                 || negb (Flag.contains mt CROSS_TRAINER
                          || Flag.contains mt INDOOR_BIKE
                          || Flag.contains mt ROWER) = true
                 <-> (Flag.contains mt TREADMILL = true
                      \/ (Flag.contains mt CROSS_TRAINER = false
                          /\ Flag.contains mt INDOOR_BIKE = false
                          /\ Flag.contains mt ROWER = false))).
  { destruct (Flag.contains mt TREADMILL), (Flag.contains mt CROSS_TRAINER),
      (Flag.contains mt INDOOR_BIKE), (Flag.contains mt ROWER);
      cbn; intuition discriminate. }
  rewrite negotiated_contains_speed, negotiated_contains_incline by exact Hraw.
  rewrite !andb_true_iff, !not_none_is_some, Hcat. tauto.
Qed.

(** X6: resistance, and likewise power, is asserted in the settings
    [read_features] returns exactly when the device advertises it, exposes
    its range characteristic, and the category does not assert treadmill. *)
Theorem X6_resistance_power_kept_iff cli mt features raw :
  read_bitfields cli = Ok (features, raw) ->
  exists negotiated,
    read_features cli mt = Ok (features, negotiated)
    /\ (Flag.contains negotiated RESISTANCE = true
        <-> Flag.contains raw RESISTANCE = true
            /\ is_Some (get_characteristic cli RESISTANCE_LEVEL_RANGE_UUID)
            /\ Flag.contains mt TREADMILL = false)
    /\ (Flag.contains negotiated POWER = true
        <-> Flag.contains raw POWER = true
            /\ is_Some (get_characteristic cli POWER_RANGE_UUID)
            /\ Flag.contains mt TREADMILL = false).
Proof.
  intros Hbits. eexists. split; [apply read_features_decoded, Hbits |].
  pose proof (read_bitfields_valid cli features raw Hbits) as Hraw.
  rewrite negotiated_contains_resistance, negotiated_contains_power
    by exact Hraw.
  rewrite !andb_true_iff, !not_none_is_some, !negb_true_iff. tauto.
Qed.

(** X7: [read_features] never changes a setting other than the five
    range-bearing ones: a flag sharing no bit with speed, incline,
    resistance, power and heart rate (energy, steps, ..., cadence, or any
    union of them) is asserted in the result exactly when the device
    advertises it, for every category and whatever characteristics exist. *)
Theorem X7_other_settings_untouched cli mt features raw flag :
  read_bitfields cli = Ok (features, raw) ->
  Z.land flag
    (Z.lor SPEED (Z.lor INCLINE (Z.lor RESISTANCE (Z.lor POWER HEART_RATE))))
  = 0 ->
  exists negotiated,
    read_features cli mt = Ok (features, negotiated)
    /\ Flag.contains negotiated flag = Flag.contains raw flag.
Proof.
  intros Hbits Hflag. eexists.
  split; [apply read_features_decoded, Hbits |].
  rewrite negotiated_ldiff by (eapply read_bitfields_valid, Hbits).
  apply contains_ldiff_disjoint.
  rewrite <- (pruned_within_five cli mt raw).
  rewrite (Z.land_comm (Z.lor _ _)), Z.land_assoc, Hflag.
  apply Z.land_0_l.
Qed.

(** X8: every range-bearing setting asserted in the settings
    [read_features] returns has its range characteristic on the device, so
    that [read_supported_ranges] is only ever sent to characteristics that
    exist. *)
Theorem X8_negotiated_setting_has_range cli mt features raw
    flag key uuid num :
  read_bitfields cli = Ok (features, raw) ->
  (flag, key, uuid, num) ∈ range_rows ->
  exists negotiated,
    read_features cli mt = Ok (features, negotiated)
    /\ (Flag.contains negotiated flag = true ->
        is_Some (get_characteristic cli uuid)).
Proof.
  intros Hbits Hrow. eexists.
  split; [apply read_features_decoded, Hbits |].
  pose proof (read_bitfields_valid cli features raw Hbits) as Hraw.
  unfold range_rows in Hrow.
  repeat (apply elem_of_cons in Hrow as [Hrow | Hrow];
          [injection Hrow as -> -> -> -> |]);
    [| | | | | inversion Hrow].
  - rewrite negotiated_contains_speed by exact Hraw.
    rewrite !andb_true_iff, not_none_is_some. tauto.
  - rewrite negotiated_contains_incline by exact Hraw.
    rewrite !andb_true_iff, not_none_is_some. tauto.
  - rewrite negotiated_contains_resistance by exact Hraw.
    rewrite !andb_true_iff, not_none_is_some. tauto.
  - rewrite negotiated_contains_power by exact Hraw.
    rewrite !andb_true_iff, not_none_is_some. tauto.
  - rewrite negotiated_contains_heart_rate by exact Hraw.
    rewrite !andb_true_iff, not_none_is_some. tauto.
Qed.

(** X9: the negotiation is idempotent: running the two pruning passes
    again on the settings [read_features] returned, for the same device
    and category, changes nothing. *)
Theorem X9_negotiation_idempotent cli mt features raw :
  read_bitfields cli = Ok (features, raw) ->
  exists negotiated,
    read_features cli mt = Ok (features, negotiated)
    /\ remove_untypical mt (remove_without_ranges cli negotiated)
       = negotiated.
Proof.
  intros Hbits. eexists. split; [apply read_features_decoded, Hbits |].
  apply (negotiated_idempotent cli mt raw).
  eapply read_bitfields_valid, Hbits.
Qed.

(** X10: the two pruning passes commute: on a decoded settings value,
    removing the untypical settings first and the settings without range
    second gives the settings [read_features] computes in the opposite
    order. *)
Theorem X10_pruning_passes_commute cli mt features raw :
  read_bitfields cli = Ok (features, raw) ->
  read_features cli mt
  = Ok (features, remove_without_ranges cli (remove_untypical mt raw)).
Proof.
  intros Hbits. rewrite (read_features_decoded cli mt features raw Hbits).
  rewrite phases_commute by (eapply read_bitfields_valid, Hbits).
  reflexivity.
Qed.

(** X11: what [read_features] returns are values of the two strict
    classes: applying [MachineFeatures] and [MachineSettings] to them
    raises nothing and gives them back, so no [&=] of the negotiation
    leaves the strict boundary. *)
Theorem X11_read_features_returns_class_values cli mt features negotiated :
  read_features cli mt = Ok (features, negotiated) ->
  MachineFeatures.call features = Ok features
  /\ MachineSettings.call negotiated = Ok negotiated.
Proof.
  intros Hread.
  apply read_features_inv in Hread as (raw & Hbits & ->).
  pose proof (read_bitfields_features_valid cli features raw Hbits) as Hf.
  pose proof (negotiated_valid cli mt raw
                (read_bitfields_valid cli features raw Hbits)) as Hs.
  unfold valid in Hs. rewrite (proj1 settings_mask) in Hs.
  unfold MachineFeatures.call, MachineSettings.call.
  rewrite (call_nonneg MachineFeatures.class 17 ltac:(lia)
             (proj1 features_mask) (proj2 features_mask)) by lia.
  rewrite (call_nonneg class 17 ltac:(lia)
             (proj1 settings_mask) (proj1 (proj2 settings_mask))) by lia.
  destruct (Z.leb_spec features (Z.ones 17)); [| lia].
  destruct (Z.leb_spec (remove_untypical mt (remove_without_ranges cli raw))
              (Z.ones 17)); [| lia].
  split; reflexivity.
Qed.

End NegotiationExtras.

(** ** Failures of [read_features] before the negotiation *)

Lemma little_endian_nonneg (data : list Byte.byte) :
  0 <= NumSerializer.little_endian data.
Proof. induction data as [| b data IH]; cbn [NumSerializer.little_endian]; lia. Qed.

Lemma deserialize_u4 (bio : BytesIO.t) :
  (4 <= length bio)%nat ->
  NumSerializer.deserialize_int NumSerializer.u4 bio
  = Ok (NumSerializer.little_endian (take 4 bio), drop 4 bio).
Proof.
  intros Hlen.
  unfold NumSerializer.deserialize_int, BytesIO.read, NumSerializer.u4.
  cbn [NumSerializer.byte_width NumSerializer.signed].
  rewrite length_take.
  replace (_ <? _)%nat with false by (symmetry; apply Nat.ltb_ge; lia).
  reflexivity.
Qed.

Section DecodingExtras.

Context {const : Const} {machine_type : MachineType}.

Implicit Types (cli : BleakClient) (mt : Z).

(** X12: [read_features] fails before decoding anything when the Feature
    characteristic is missing ([CharacteristicNotFound]), when reading it
    raises (the exception of the read is passed on unchanged), and when the
    read returns other than 8 bytes ([AssertionError]). *)
Theorem X12_read_features_early_failures cli mt :
  (get_characteristic cli FEATURE_UUID = None ->
   read_features cli mt = Raise (CharacteristicNotFound "Machine Feature"))
  /\ (forall c e,
        get_characteristic cli FEATURE_UUID = Some c ->
        read_gatt_char cli c = Raise e ->
        read_features cli mt = Raise e)
  /\ (forall c data,
        get_characteristic cli FEATURE_UUID = Some c ->
        read_gatt_char cli c = Ok data ->
        length data <> 8%nat ->
        read_features cli mt = Raise AssertionError).
Proof.
  unfold read_features, read_bitfields. split; [| split].
  - intros ->. reflexivity.
  - intros c e -> ->. reflexivity.
  - intros c data -> -> Hlen. rewrite bind_ret_l.
    replace (length data =? 8)%nat with false
      by (symmetry; apply Nat.eqb_neq, Hlen).
    reflexivity.
Qed.

(** X13: on an 8-byte Feature characteristic the features are the first
    four bytes and the raw settings the last four, both read as unsigned
    little-endian integers: [read_features] returns the first integer and
    the negotiated second one when both are below [2 ^ 17], and raises
    [ValueError] as soon as one of them is not. *)
Theorem X13_read_features_decodes_two_words cli mt c data :
  get_characteristic cli FEATURE_UUID = Some c ->
  read_gatt_char cli c = Ok data ->
  length data = 8%nat ->
  read_features cli mt
  = if (NumSerializer.little_endian (take 4 data) <? 2 ^ 17)
       && (NumSerializer.little_endian (drop 4 data) <? 2 ^ 17)
    then Ok (NumSerializer.little_endian (take 4 data),
             remove_untypical mt
               (remove_without_ranges cli
                  (NumSerializer.little_endian (drop 4 data))))
    else Raise ValueError.
Proof.
  intros Hchar Hread Hlen.
  unfold read_features, read_bitfields.
  rewrite Hchar, Hread, bind_ret_l, Hlen. cbn [Nat.eqb assert]. rewrite bind_ret_l.
  rewrite deserialize_u4 by lia. rewrite bind_ret_l.
  pose proof (Hcall := fun names v Hv =>
    call_nonneg (Flag.Cls (Flag.auto_values names [])) (Z.of_nat (length names))
      ltac:(lia) (auto_class_flag_mask names) (auto_class_all_bits names) v Hv).
  unfold MachineFeatures.call, MachineSettings.call,
    MachineFeatures.class, MachineSettings.class.
  rewrite (Hcall MachineFeatures.names _ (little_endian_nonneg _)).
  change (Z.ones (Z.of_nat (length MachineFeatures.names))) with (2 ^ 17 - 1).
  destruct (Z.leb_spec (NumSerializer.little_endian (take 4 data)) (2 ^ 17 - 1))
    as [Hf | Hf];
    destruct (Z.ltb_spec (NumSerializer.little_endian (take 4 data)) (2 ^ 17));
    try lia; cbn [andb]; [| reflexivity].
  rewrite bind_ret_l, deserialize_u4 by (rewrite length_drop; lia).
  rewrite bind_ret_l.
  assert (Hdrop : take 4 (drop 4 data) = drop 4 data).
  { apply take_ge. rewrite length_drop. lia. }
  rewrite Hdrop.
  rewrite (Hcall MachineSettings.names _ (little_endian_nonneg _)).
  change (Z.ones (Z.of_nat (length MachineSettings.names))) with (2 ^ 17 - 1).
  destruct (Z.leb_spec (NumSerializer.little_endian (drop 4 data)) (2 ^ 17 - 1));
    destruct (Z.ltb_spec (NumSerializer.little_endian (drop 4 data)) (2 ^ 17));
    try lia; reflexivity.
Qed.

End DecodingExtras.

(** ** More on [read_supported_ranges] *)

Lemma range_long_buffer cli uuid num data :
  read_gatt_char cli uuid = Ok data ->
  (3 * NumSerializer.byte_width num < length data)%nat ->
  _range cli uuid num = Raise AssertionError.
Proof.
  intros Hread Hlen. unfold _range.
  rewrite Hread, bind_ret_l.
  rewrite (deserialize_enough num data) by lia.
  rewrite bind_ret_l.
  set (bio1 := drop _ data).
  assert (Hlen1 : length bio1 = (length data - NumSerializer.byte_width num)%nat)
    by apply length_drop.
  rewrite (deserialize_enough num bio1) by lia.
  rewrite bind_ret_l.
  set (bio2 := drop _ bio1).
  assert (Hlen2 : length bio2 = (length bio1 - NumSerializer.byte_width num)%nat)
    by apply length_drop.
  rewrite (deserialize_enough num bio2) by lia.
  rewrite bind_ret_l.
  set (bio3 := drop _ bio2).
  assert (Hlen3 : length bio3 = (length bio2 - NumSerializer.byte_width num)%nat)
    by apply length_drop.
  destruct bio3 as [| b bio3]; [cbn in Hlen3; lia |]. reflexivity.
Qed.

Lemma read_supported_ranges_rows {const : Const} cli settings :
  read_supported_ranges cli settings
  = read_rows cli settings range_rows ∅.
Proof. reflexivity. Qed.

Lemma read_range_inv cli settings flag key uuid num
    (res res' : gmap string SettingRange) :
  read_range cli settings flag key uuid num res = Ok res' ->
  (Flag.contains settings flag = true
   /\ exists r, _range cli uuid num = Ok r /\ res' = <[key := r]> res)
  \/ (Flag.contains settings flag = false /\ res' = res).
Proof.
  unfold read_range. destruct (Flag.contains settings flag).
  - intros E. apply bind_Ok in E as (r & Hr & E). injection E as <-.
    left. eauto.
  - intros [= <-]. right. auto.
Qed.

(** The table a run of blocks builds: the range of every asserted block
    under its key, every other key as before. *)
Lemma read_rows_lookup cli settings
    (rows : list (Z * string * string * NumSerializer.format))
    (res table : gmap string SettingRange) :
  NoDup ((fun row => snd (fst (fst row))) <$> rows) ->
  read_rows cli settings rows res = Ok table ->
  (forall flag key uuid num,
      (flag, key, uuid, num) ∈ rows ->
      Flag.contains settings flag = true ->
      exists r, _range cli uuid num = Ok r /\ table !! key = Some r)
  /\ (forall k, k ∉ (fun row => snd (fst (fst row))) <$> rows ->
                table !! k = res !! k).
Proof.
  revert res. induction rows as [| [[[f k] u] n] rows IH]; intros res Hnd E.
  - injection E as <-. split; [intros ? ? ? ? Hin; inversion Hin | auto].
  - cbn [read_rows] in E. apply bind_Ok in E as (res1 & Hhead & E).
    cbn [fmap list_fmap fst snd] in Hnd.
    apply NoDup_cons in Hnd as [Hfresh Hnd].
    destruct (IH res1 Hnd E) as [IHin IHout].
    apply read_range_inv in Hhead. split.
    + intros flag key uuid num Hin Hc.
      apply elem_of_cons in Hin as [Heq | Hin]; [| eauto].
      injection Heq as -> -> -> ->.
      destruct Hhead as [(_ & r & Hr & ->) | (Hc' & _)]; [| congruence].
      exists r. split; [exact Hr |].
      rewrite (IHout k Hfresh). apply lookup_insert_eq.
    + intros k' Hk'. cbn [fmap list_fmap fst snd] in Hk'.
      apply not_elem_of_cons in Hk' as [Hne Hk'].
      rewrite (IHout k' Hk').
      destruct Hhead as [(_ & r & _ & ->) | (_ & ->)]; [| reflexivity].
      apply lookup_insert_ne. congruence.
Qed.

(** The blocks run in order, and the first failure ends the run. *)
Lemma read_rows_first_failure cli settings
    (pre post : list (Z * string * string * NumSerializer.format))
    flag key uuid num (res : gmap string SettingRange) e :
  (forall flag' key' uuid' num',
      (flag', key', uuid', num') ∈ pre ->
      Flag.contains settings flag' = true ->
      exists r, _range cli uuid' num' = Ok r) ->
  Flag.contains settings flag = true ->
  _range cli uuid num = Raise e ->
  read_rows cli settings (pre ++ (flag, key, uuid, num) :: post) res
  = Raise e.
Proof.
  revert res. induction pre as [| [[[f k] u] n] pre IH]; intros res Hpre Hc He.
  - cbn [app read_rows]. unfold read_range. rewrite Hc, He. reflexivity.
  - cbn [app read_rows].
    assert (Hhead : exists res1,
               read_range cli settings f k u n res = Ok res1).
    { unfold read_range. destruct (Flag.contains settings f) eqn:Hf;
        [| eauto].
      destruct (Hpre f k u n (list_elem_of_here _ _) Hf) as [r ->].
      rewrite bind_ret_l. eauto. }
    destruct Hhead as [res1 ->]. rewrite bind_ret_l.
    apply IH; [| exact Hc | exact He].
    intros flag' key' uuid' num' Hin Hc'.
    apply (Hpre flag' key' uuid' num'); [| exact Hc'].
    apply list_elem_of_further, Hin.
Qed.

Section RangeExtras.

Context {const : Const} {machine_type : MachineType}.

Import MachineSettings.

Implicit Types (cli : BleakClient) (mt raw settings features : Z).

(** X14: for settings asserting none of the five range-bearing settings
    [read_supported_ranges] returns the empty table without reading any
    characteristic, whatever the device would answer. *)
Theorem X14_no_range_setting_empty_table cli settings :
  Flag.contains settings SPEED = false ->
  Flag.contains settings INCLINE = false ->
  Flag.contains settings RESISTANCE = false ->
  Flag.contains settings POWER = false ->
  Flag.contains settings HEART_RATE = false ->
  read_supported_ranges cli settings = Ok ∅.
Proof.
  intros H1 H2 H3 H4 H5. unfold read_supported_ranges, read_range.
  rewrite H1, H2, H3, H4, H5. reflexivity.
Qed.

(** X15: for a device exposing none of the five range characteristics,
    [read_features] followed by [read_supported_ranges] on the settings it
    returned gives the empty table: no read of a missing characteristic is
    attempted. *)
Theorem X15_no_range_characteristic_empty_table cli mt features raw :
  read_bitfields cli = Ok (features, raw) ->
  get_characteristic cli SPEED_RANGE_UUID = None ->
  get_characteristic cli INCLINATION_RANGE_UUID = None ->
  get_characteristic cli RESISTANCE_LEVEL_RANGE_UUID = None ->
  get_characteristic cli POWER_RANGE_UUID = None ->
  get_characteristic cli HEART_RATE_RANGE_UUID = None ->
  exists negotiated,
    read_features cli mt = Ok (features, negotiated)
    /\ read_supported_ranges cli negotiated = Ok ∅.
Proof.
  intros Hbits H1 H2 H3 H4 H5. eexists.
  split; [apply read_features_decoded, Hbits |].
  pose proof (read_bitfields_valid cli features raw Hbits) as Hraw.
  unfold read_supported_ranges, read_range.
  rewrite negotiated_contains_speed, negotiated_contains_incline,
    negotiated_contains_resistance, negotiated_contains_power,
    negotiated_contains_heart_rate by exact Hraw.
  rewrite H1, H2, H3, H4, H5.
  rewrite bool_decide_eq_true_2 by reflexivity.
  cbn [negb]. rewrite !andb_false_r. reflexivity.
Qed.

(** X16: with pairwise distinct keys, the table [read_supported_ranges]
    returns holds, under the key of every range-bearing setting the
    settings assert, the range [_range] decodes from that setting's
    characteristic. *)
Theorem X16_table_holds_decoded_ranges cli settings table
    flag key uuid num :
  NoDup (snd <$> range_settings) ->
  read_supported_ranges cli settings = Ok table ->
  (flag, key, uuid, num) ∈ range_rows ->
  Flag.contains settings flag = true ->
  exists r, _range cli uuid num = Ok r /\ table !! key = Some r.
Proof.
  intros Hnd Hread Hrow Hc.
  rewrite read_supported_ranges_rows in Hread.
  destruct (read_rows_lookup cli settings range_rows ∅ table Hnd Hread)
    as [Hin _].
  eauto.
Qed.

(** X17: the blocks of [read_supported_ranges] run in the order speed,
    incline, resistance, power, heart rate, and the first asserted setting
    whose [_range] raises ends the run with that exception. *)
Theorem X17_first_failing_range_is_raised cli settings pre post
    flag key uuid num e :
  range_rows = pre ++ (flag, key, uuid, num) :: post ->
  (forall flag' key' uuid' num',
      (flag', key', uuid', num') ∈ pre ->
      Flag.contains settings flag' = true ->
      exists r, _range cli uuid' num' = Ok r) ->
  Flag.contains settings flag = true ->
  _range cli uuid num = Raise e ->
  read_supported_ranges cli settings = Raise e.
Proof.
  intros Hrows Hpre Hc He.
  rewrite read_supported_ranges_rows, Hrows.
  apply read_rows_first_failure; assumption.
Qed.

(** X18: when the characteristic is read, [_range] returns a range exactly
    when the buffer holds three numbers of the format and nothing else; a
    longer buffer fails the final assertion. *)
Theorem X18_range_needs_exact_length cli uuid num data :
  read_gatt_char cli uuid = Ok data ->
  ((exists r, _range cli uuid num = Ok r)
   <-> length data = (3 * NumSerializer.byte_width num)%nat)
  /\ ((3 * NumSerializer.byte_width num < length data)%nat ->
      _range cli uuid num = Raise AssertionError).
Proof.
  intros Hread. split.
  - split.
    + intros [r Hr].
      destruct (Nat.lt_trichotomy (length data)
                  (3 * NumSerializer.byte_width num)) as [Hlt | [Heq | Hgt]].
      * rewrite (range_short_buffer cli uuid num data Hread Hlt) in Hr.
        discriminate.
      * exact Heq.
      * rewrite (range_long_buffer cli uuid num data Hread Hgt) in Hr.
        discriminate.
    + apply range_exact_buffer, Hread.
  - apply range_long_buffer, Hread.
Qed.

(** X19: for a category asserting treadmill, with pairwise distinct keys,
    the table [read_supported_ranges] returns for the settings
    [read_features] returned has no entry for resistance and none for
    power. *)
Theorem X19_treadmill_table_without_resistance_power
    cli mt features raw table :
  NoDup (snd <$> range_settings) ->
  read_bitfields cli = Ok (features, raw) ->
  Flag.contains mt TREADMILL = true ->
  read_supported_ranges cli (remove_untypical mt (remove_without_ranges cli raw))
  = Ok table ->
  read_features cli mt
  = Ok (features, remove_untypical mt (remove_without_ranges cli raw))
  /\ table !! TARGET_RESISTANCE = None
  /\ table !! TARGET_POWER = None.
Proof.
  intros Hnd Hbits Htread Htable.
  split; [apply read_features_decoded, Hbits |].
  pose proof (read_bitfields_valid cli features raw Hbits) as Hraw.
  pose proof (read_supported_ranges_dom cli _ table Htable) as Hdom.
  assert (Hout : forall flag key,
             (flag, key) ∈ range_settings ->
             Flag.contains (remove_untypical mt (remove_without_ranges cli raw))
               flag = false ->
             table !! key = None).
  { intros flag key Hin Hc. apply not_elem_of_dom. rewrite Hdom.
    rewrite asserted_keys_elem. intros (flag' & Hin' & Hc').
    rewrite (keys_functional range_settings flag flag' key Hnd Hin Hin') in Hc.
    congruence. }
  split.
  - apply (Hout RESISTANCE).
    + unfold range_settings. do 2 apply list_elem_of_further.
      apply list_elem_of_here.
    + rewrite negotiated_contains_resistance, Htread by exact Hraw.
      apply andb_false_r.
  - apply (Hout POWER).
    + unfold range_settings. do 3 apply list_elem_of_further.
      apply list_elem_of_here.
    + rewrite negotiated_contains_power, Htread by exact Hraw.
      apply andb_false_r.
Qed.

End RangeExtras.

(** *** The further properties on the example devices *)

Lemma X4_heart_rate_kept_iff_range_exposed_witness :
  exists negotiated,
    @read_features Example.const Example.machine_type Example.treadmill 1
    = Ok (0, negotiated)
    /\ (Flag.contains negotiated MachineSettings.HEART_RATE = true
        <-> Flag.contains 19 MachineSettings.HEART_RATE = true
            /\ is_Some (get_characteristic Example.treadmill
                          (@HEART_RATE_RANGE_UUID Example.const))).
Proof.
  apply (@X4_heart_rate_kept_iff_range_exposed Example.const
           Example.machine_type Example.treadmill 1 0 19).
  vm_compute. reflexivity.
Defined.

Lemma X5_speed_incline_kept_iff_witness :
  exists negotiated,
    @read_features Example.const Example.machine_type Example.bike 32
    = Ok (0, negotiated)
    /\ (Flag.contains negotiated MachineSettings.SPEED = true
        <-> Flag.contains 7 MachineSettings.SPEED = true
            /\ is_Some (get_characteristic Example.bike
                          (@SPEED_RANGE_UUID Example.const))
            /\ (Flag.contains 32 (@TREADMILL Example.machine_type) = true
                \/ (Flag.contains 32 (@CROSS_TRAINER Example.machine_type)
                    = false
                    /\ Flag.contains 32 (@INDOOR_BIKE Example.machine_type)
                       = false
                    /\ Flag.contains 32 (@ROWER Example.machine_type)
                       = false)))
    /\ (Flag.contains negotiated MachineSettings.INCLINE = true
        <-> Flag.contains 7 MachineSettings.INCLINE = true
            /\ is_Some (get_characteristic Example.bike
                          (@INCLINATION_RANGE_UUID Example.const))
            /\ (Flag.contains 32 (@TREADMILL Example.machine_type) = true
                \/ (Flag.contains 32 (@CROSS_TRAINER Example.machine_type)
                    = false
                    /\ Flag.contains 32 (@INDOOR_BIKE Example.machine_type)
                       = false
                    /\ Flag.contains 32 (@ROWER Example.machine_type)
                       = false))).
Proof.
  apply (@X5_speed_incline_kept_iff Example.const Example.machine_type
           Example.bike 32 0 7).
  vm_compute. reflexivity.
Defined.

Lemma X6_resistance_power_kept_iff_witness :
  exists negotiated,
    @read_features Example.const Example.machine_type Example.short_power 32
    = Ok (0, negotiated)
    /\ (Flag.contains negotiated MachineSettings.RESISTANCE = true
        <-> Flag.contains 8 MachineSettings.RESISTANCE = true
            /\ is_Some (get_characteristic Example.short_power
                          (@RESISTANCE_LEVEL_RANGE_UUID Example.const))
            /\ Flag.contains 32 (@TREADMILL Example.machine_type) = false)
    /\ (Flag.contains negotiated MachineSettings.POWER = true
        <-> Flag.contains 8 MachineSettings.POWER = true
            /\ is_Some (get_characteristic Example.short_power
                          (@POWER_RANGE_UUID Example.const))
            /\ Flag.contains 32 (@TREADMILL Example.machine_type) = false).
Proof.
  apply (@X6_resistance_power_kept_iff Example.const Example.machine_type
           Example.short_power 32 0 8).
  vm_compute. reflexivity.
Defined.

Lemma X7_other_settings_untouched_witness :
  exists negotiated,
    @read_features Example.const Example.machine_type
      (Example.device [Example.feature_char 0 65543]) 32
    = Ok (0, negotiated)
    /\ Flag.contains negotiated MachineSettings.CADENCE
       = Flag.contains 65543 MachineSettings.CADENCE.
Proof.
  apply (@X7_other_settings_untouched Example.const Example.machine_type
           (Example.device [Example.feature_char 0 65543]) 32 0 65543
           MachineSettings.CADENCE);
    vm_compute; reflexivity.
Defined.

Lemma X8_negotiated_setting_has_range_witness :
  exists negotiated,
    @read_features Example.const Example.machine_type Example.treadmill 1
    = Ok (0, negotiated)
    /\ (Flag.contains negotiated MachineSettings.SPEED = true ->
        is_Some (get_characteristic Example.treadmill
                   (@SPEED_RANGE_UUID Example.const))).
Proof.
  apply (@X8_negotiated_setting_has_range Example.const Example.machine_type
           Example.treadmill 1 0 19 MachineSettings.SPEED
           (@TARGET_SPEED Example.const) (@SPEED_RANGE_UUID Example.const)
           NumSerializer.u2_01).
  - vm_compute. reflexivity.
  - apply list_elem_of_here.
Defined.

Lemma X9_negotiation_idempotent_witness :
  exists negotiated,
    @read_features Example.const Example.machine_type Example.bike 1
    = Ok (0, negotiated)
    /\ @remove_untypical Example.machine_type 1
         (@remove_without_ranges Example.const Example.bike negotiated)
       = negotiated.
Proof.
  apply (@X9_negotiation_idempotent Example.const Example.machine_type
           Example.bike 1 0 7).
  vm_compute. reflexivity.
Defined.

Lemma X10_pruning_passes_commute_witness :
  @read_features Example.const Example.machine_type Example.bike 1
  = Ok (0, @remove_without_ranges Example.const Example.bike
             (@remove_untypical Example.machine_type 1 7)).
Proof.
  apply (@X10_pruning_passes_commute Example.const Example.machine_type
           Example.bike 1 0 7).
  vm_compute. reflexivity.
Defined.

Lemma X11_read_features_returns_class_values_witness :
  MachineFeatures.call 0 = Ok 0 /\ MachineSettings.call 19 = Ok 19.
Proof.
  apply (@X11_read_features_returns_class_values Example.const
           Example.machine_type Example.treadmill 1 0 19).
  vm_compute. reflexivity.
Defined.

Lemma X13_read_features_decodes_two_words_witness :
  @read_features Example.const Example.machine_type Example.treadmill 1
  = Ok (0, 19).
Proof.
  rewrite (@X13_read_features_decodes_two_words Example.const
             Example.machine_type Example.treadmill 1
             (@FEATURE_UUID Example.const)
             (Example.u4_bytes 0 ++ Example.u4_bytes 19)
             eq_refl eq_refl eq_refl).
  vm_compute. reflexivity.
Defined.

Lemma X14_no_range_setting_empty_table_witness :
  @read_supported_ranges Example.const Example.bare 65536 = Ok ∅.
Proof.
  apply (@X14_no_range_setting_empty_table Example.const Example.bare 65536);
    reflexivity.
Defined.

Lemma X15_no_range_characteristic_empty_table_witness :
  exists negotiated,
    @read_features Example.const Example.machine_type
      (Example.device [Example.feature_char 0 31]) 1
    = Ok (0, negotiated)
    /\ @read_supported_ranges Example.const
         (Example.device [Example.feature_char 0 31]) negotiated
       = Ok ∅.
Proof.
  apply (@X15_no_range_characteristic_empty_table Example.const
           Example.machine_type (Example.device [Example.feature_char 0 31])
           1 0 31);
    vm_compute; reflexivity.
Defined.

Lemma X16_table_holds_decoded_ranges_witness :
  exists r,
    _range Example.treadmill (@HEART_RATE_RANGE_UUID Example.const)
      NumSerializer.u1 = Ok r
    /\ (<[ "target_heart_rate" := Build_SettingRange 40 200 1 ]>
          (<[ "target_inclination" := Build_SettingRange 0 15 (1 # 2) ]>
            (<[ "target_speed" := Build_SettingRange 1 20 (1 # 10) ]>
                (∅ : gmap string SettingRange))))
        !! (@TARGET_HEART_RATE Example.const) = Some r.
Proof.
  apply (@X16_table_holds_decoded_ranges Example.const Example.treadmill 19
           (<[ "target_heart_rate" := Build_SettingRange 40 200 1 ]>
             (<[ "target_inclination" := Build_SettingRange 0 15 (1 # 2) ]>
               (<[ "target_speed" := Build_SettingRange 1 20 (1 # 10) ]>
                (∅ : gmap string SettingRange))))
           MachineSettings.HEART_RATE (@TARGET_HEART_RATE Example.const)
           (@HEART_RATE_RANGE_UUID Example.const) NumSerializer.u1
           example_keys_distinct).
  - vm_compute. reflexivity.
  - unfold range_rows. do 4 apply list_elem_of_further.
    apply list_elem_of_here.
  - vm_compute. reflexivity.
Defined.

Lemma X17_first_failing_range_is_raised_witness :
  @read_supported_ranges Example.const Example.treadmill 27
  = Raise (TransportError "characteristic not found").
Proof.
  apply (@X17_first_failing_range_is_raised Example.const Example.treadmill 27
           [ (MachineSettings.SPEED, @TARGET_SPEED Example.const,
              @SPEED_RANGE_UUID Example.const, NumSerializer.u2_01);
             (MachineSettings.INCLINE, @TARGET_INCLINATION Example.const,
              @INCLINATION_RANGE_UUID Example.const, NumSerializer.s2_1);
             (MachineSettings.RESISTANCE, @TARGET_RESISTANCE Example.const,
              @RESISTANCE_LEVEL_RANGE_UUID Example.const, NumSerializer.s2_1) ]
           [ (MachineSettings.HEART_RATE, @TARGET_HEART_RATE Example.const,
              @HEART_RATE_RANGE_UUID Example.const, NumSerializer.u1) ]
           MachineSettings.POWER (@TARGET_POWER Example.const)
           (@POWER_RANGE_UUID Example.const) NumSerializer.s2).
  - reflexivity.
  - intros flag key uuid num Hin Hc.
    apply elem_of_cons in Hin as [Heq | Hin];
      [injection Heq as -> -> -> ->; eexists; vm_compute; reflexivity |].
    apply elem_of_cons in Hin as [Heq | Hin];
      [injection Heq as -> -> -> ->; eexists; vm_compute; reflexivity |].
    apply elem_of_cons in Hin as [Heq | Hin];
      [injection Heq as -> -> -> ->; discriminate Hc |].
    inversion Hin.
  - reflexivity.
  - vm_compute. reflexivity.
Defined.

Lemma X18_range_needs_exact_length_witness :
  exists r,
    _range Example.treadmill (@HEART_RATE_RANGE_UUID Example.const)
      NumSerializer.u1 = Ok r.
Proof.
  apply (@X18_range_needs_exact_length Example.treadmill
           (@HEART_RATE_RANGE_UUID Example.const) NumSerializer.u1
           [Byte.x28; Byte.xc8; Byte.x01] eq_refl).
  reflexivity.
Defined.

Lemma X19_treadmill_table_without_resistance_power_witness :
  (<[ "target_heart_rate" := Build_SettingRange 40 200 1 ]>
    (<[ "target_inclination" := Build_SettingRange 0 15 (1 # 2) ]>
      (<[ "target_speed" := Build_SettingRange 1 20 (1 # 10) ]>
                (∅ : gmap string SettingRange))))
  !! (@TARGET_RESISTANCE Example.const) = None
  /\ (<[ "target_heart_rate" := Build_SettingRange 40 200 1 ]>
        (<[ "target_inclination" := Build_SettingRange 0 15 (1 # 2) ]>
          (<[ "target_speed" := Build_SettingRange 1 20 (1 # 10) ]>
                (∅ : gmap string SettingRange))))
      !! (@TARGET_POWER Example.const) = None.
Proof.
  apply (@X19_treadmill_table_without_resistance_power Example.const
           Example.machine_type Example.treadmill 1 0 19
           (<[ "target_heart_rate" := Build_SettingRange 40 200 1 ]>
             (<[ "target_inclination" := Build_SettingRange 0 15 (1 # 2) ]>
               (<[ "target_speed" := Build_SettingRange 1 20 (1 # 10) ]>
                (∅ : gmap string SettingRange))))
           example_keys_distinct);
    vm_compute; reflexivity.
Defined.
